(** * NVD connector: the fetcher (extract.py) and the transformer (transform.py)

    A shallow embedding of the two scripts of the repository.  JSON / BSON
    data are Python values, the Python operations the scripts apply to them
    (subscripting, [.get], iteration, truthiness, [len], set construction)
    are total functions into an error monad that carries the raised
    exception, the two MongoDB collections are a record of document lists,
    and the log is the list of the [logging] calls made, in order. *)

From Stdlib Require Import String Ascii List ZArith QArith Bool Arith Lia Permutation.
Import ListNotations.
Close Scope Q_scope.
Open Scope string_scope.
Open Scope list_scope.

(** ** Python values *)

Module Py.

(** The values a decoded JSON body or a BSON document is made of.  A finite
    float is represented by the rational it denotes: the scripts only test
    floats for truth and for equality, and both are functions of that
    rational.  A [dict] keeps its items in insertion order, as Python does;
    the keys of a document are strings. *)
#[warnings="-register-all"]
Inductive value : Type :=
| VNone
| VBool (b : bool)
| VInt (z : Z)
| VFloat (q : Q)
| VStr (s : string)
| VList (l : list value)
| VDict (d : list (string * value)).

Definition dict : Type := list (string * value).

Inductive pytype : Type :=
| TNone | TBool | TInt | TFloat | TStr | TList | TDict.

Definition type_of (v : value) : pytype :=
  match v with
  | VNone => TNone
  | VBool _ => TBool
  | VInt _ => TInt
  | VFloat _ => TFloat
  | VStr _ => TStr
  | VList _ => TList
  | VDict _ => TDict
  end.

(** The exceptions the scripts can meet. *)
Inductive exn : Type :=
| KeyError (key : value)
| IndexError (t : pytype)
| AttributeError (t : pytype) (attr : string)
| TypeError_not_subscriptable (t : pytype)
| TypeError_bad_index (t : pytype)
| TypeError_not_iterable (t : pytype)
| TypeError_unhashable (t : pytype)
| TypeError_no_len (t : pytype)
| TypeError_bad_documents
| ValueError (msg : string)
| ServerSelectionTimeoutError
| PyMongoError
| InvalidURI
| InvalidName
| OperationFailure
| OverflowError
| InvalidDocument.

(** An expression either yields a value or raises. *)
Inductive result (A : Type) : Type :=
| Ok (a : A)
| Raise (e : exn).
Arguments Ok {A} a.
Arguments Raise {A} e.

Definition bind {A B : Type} (r : result A) (k : A -> result B) : result B :=
  match r with
  | Ok a => k a
  | Raise e => Raise e
  end.

Notation "x <- e ;; k" := (bind e (fun x => k))
  (at level 61, e at next level, right associativity).

Definition is_ok {A : Type} (r : result A) : bool :=
  match r with Ok _ => true | Raise _ => false end.

(** *** dict operations *)

(** [d[k]] lookup on the items. *)
Fixpoint dict_get (d : dict) (k : string) : option value :=
  match d with
  | [] => None
  | (k', v) :: rest => if String.eqb k' k then Some v else dict_get rest k
  end.

(** [d[k] = v]: an existing key keeps its position, a new key goes last. *)
Fixpoint dict_setitem (d : dict) (k : string) (v : value) : dict :=
  match d with
  | [] => [(k, v)]
  | (k', v') :: rest =>
      if String.eqb k' k then (k', v) :: rest
      else (k', v') :: dict_setitem rest k v
  end.

(** A dict display [{k1: v1, ..., **d, ..., kn: vn}] sets its items from left
    to right; a [**d] contributes the items of [d] in their order. *)
Definition dict_display (items : list (string * value)) : dict :=
  fold_left (fun d kv => dict_setitem d (fst kv) (snd kv)) items [].

Definition dict_keys (d : dict) : list string := map fst d.

(** [k in d]. *)
Definition dict_contains (d : dict) (k : string) : bool :=
  match dict_get d k with Some _ => true | None => false end.

(** *** Truth, equality, length *)

(** [bool(v)]. *)
Definition truthy (v : value) : bool :=
  match v with
  | VNone => false
  | VBool b => b
  | VInt z => negb (Z.eqb z 0)
  | VFloat q => negb (Qeq_bool q 0)
  | VStr s => negb (String.eqb s "")
  | VList l => match l with [] => false | _ => true end
  | VDict d => match d with [] => false | _ => true end
  end.

(** The number a bool, an int or a float compares as. *)
Definition num_val (v : value) : option Q :=
  match v with
  | VBool b => Some (if b then 1 else 0)%Q
  | VInt z => Some (inject_Z z)
  | VFloat q => Some q
  | _ => None
  end.

(** [a == b] where at least one side is None, a bool, a number or a string
    (the only comparisons the scripts make: against the literal ["en"], and
    between the hashable members of a set).  Numbers compare by value across
    bool, int and float; a list or dict never equals a scalar. *)
Definition py_eq (a b : value) : bool :=
  match num_val a, num_val b with
  | Some x, Some y => Qeq_bool x y
  | None, None =>
      match a, b with
      | VNone, VNone => true
      | VStr s, VStr t => String.eqb s t
      | _, _ => false
      end
  | _, _ => false
  end.

(** Lists and dicts are unhashable. *)
Definition hashable (v : value) : bool :=
  match v with
  | VList _ | VDict _ => false
  | _ => true
  end.

(** A [string] here is the UTF-8 encoding of a Python [str]: a character
    is a lead byte followed by its continuation bytes (10xxxxxx). *)
Definition is_continuation (c : ascii) : bool :=
  ((128 <=? nat_of_ascii c) && (nat_of_ascii c <? 192))%nat.

Definition starts_with_continuation (s : string) : bool :=
  match s with
  | EmptyString => false
  | String c _ => is_continuation c
  end.

(** The characters of a string, each as the string of its bytes. *)
Fixpoint code_points (s : string) : list string :=
  match s with
  | EmptyString => []
  | String c rest =>
      match code_points rest with
      | [] => [String c EmptyString]
      | g :: gs =>
          if starts_with_continuation g then String c g :: gs
          else String c EmptyString :: g :: gs
      end
  end.

(** The one-character strings a string is made of. *)
Definition chars (s : string) : list value := map VStr (code_points s).

(** [len(v)]: the number of items of a list or dict, of characters of a
    string. *)
Definition py_len (v : value) : result nat :=
  match v with
  | VList l => Ok (List.length l)
  | VDict d => Ok (List.length d)
  | VStr s => Ok (List.length (code_points s))
  | _ => Raise (TypeError_no_len (type_of v))
  end.

(** *** Subscripting, [.get], iteration *)

(** [v[k]] with a string subscript. *)
Definition py_getitem_str (v : value) (k : string) : result value :=
  match v with
  | VDict d =>
      match dict_get d k with
      | Some x => Ok x
      | None => Raise (KeyError (VStr k))
      end
  | VList _ | VStr _ => Raise (TypeError_bad_index (type_of v))
  | _ => Raise (TypeError_not_subscriptable (type_of v))
  end.

(** Position of index [i] in a sequence of length [n]; negative indices count
    from the end. *)
Definition seq_index (n : nat) (i : Z) : option nat :=
  if (0 <=? i)%Z then
    (if (i <? Z.of_nat n)%Z then Some (Z.to_nat i) else None)
  else
    (if (0 <=? i + Z.of_nat n)%Z then Some (Z.to_nat (i + Z.of_nat n)) else None).

(** [v[i]] with an integer subscript.  The keys of a document are strings, so
    an integer is never a key of a dict. *)
Definition py_getitem_int (v : value) (i : Z) : result value :=
  match v with
  | VList l =>
      match seq_index (List.length l) i with
      | Some n =>
          match nth_error l n with
          | Some x => Ok x
          | None => Raise (IndexError TList)
          end
      | None => Raise (IndexError TList)
      end
  | VStr s =>
      match seq_index (List.length (chars s)) i with
      | Some n =>
          match nth_error (chars s) n with
          | Some x => Ok x
          | None => Raise (IndexError TStr)
          end
      | None => Raise (IndexError TStr)
      end
  | VDict _ => Raise (KeyError (VInt i))
  | _ => Raise (TypeError_not_subscriptable (type_of v))
  end.

(** [v.get(k, default)]: only a dict has the method. *)
Definition py_get (v : value) (k : string) (default : value) : result value :=
  match v with
  | VDict d =>
      match dict_get d k with
      | Some x => Ok x
      | None => Ok default
      end
  | _ => Raise (AttributeError (type_of v) "get")
  end.

(** The elements a [for] loop or a comprehension draws from [v]: the items of
    a list, the keys of a dict, the characters of a string. *)
Definition py_iter (v : value) : result (list value) :=
  match v with
  | VList l => Ok l
  | VDict d => Ok (map (fun kv => VStr (fst kv)) d)
  | VStr s => Ok (chars s)
  | _ => Raise (TypeError_not_iterable (type_of v))
  end.

(** *** Sets *)

(** A set is kept as its members in insertion order, pairwise unequal. *)
Definition pyset : Type := list value.

Definition set_add (s : pyset) (v : value) : result pyset :=
  if hashable v then
    Ok (if existsb (py_eq v) s then s else s ++ [v])
  else Raise (TypeError_unhashable (type_of v)).

End Py.

(** ** Logging *)

Module Log.
Import Py.

Inductive level : Type := INFO | WARNING | ERROR.

(** One constructor per [logging] call site of the two scripts, with the
    values its f-string interpolates.  [Traceback e] is the text of
    [traceback.format_exc()] for the exception being handled. *)
Inductive message : Type :=
| EnvLoaded
| EnvFailed (e : exn)
| Connected (db : string)
| ConnectionFailed (e : exn)
| Cleared (deleted_count : nat)
| ClearFailed (e : exn)
| RawLoaded (n : nat)
| RawLoadFailed (e : exn)
| RecordFailed (e : exn)
| Transformed (n : nat)
| TransformationFailed (e : exn)
| Inserted (n : nat)
| NothingToInsert
| InsertFailed (e : exn)
| Done
| Traceback (e : exn)
| Fetching
| Fetched (status : nat)
| FetchFailed
| EnvNotSet
| Connecting
| Clearing
| FormatNotSupported
| DataInserted
| MongoError (e : exn)
| NoDataFetched.

Record entry : Type := mk_entry { lvl : level; msg : message }.

Definition log : Type := list entry.

Definition info (m : message) : entry := mk_entry INFO m.
Definition warning (m : message) : entry := mk_entry WARNING m.
Definition error (m : message) : entry := mk_entry ERROR m.

Definition is_warning (e : entry) : bool :=
  match lvl e with WARNING => true | _ => false end.

(** Number of WARNING records in a log. *)
Definition warnings (l : log) : nat := List.length (filter is_warning l).

End Log.

(** ** Storage and configuration *)

Module Mongo.
Import Py.

(** The database: the two collections the scripts use, each the list of the
    documents passed to the driver, in natural order.  The [_id] the driver
    assigns to an inserted document is not represented. *)
Record db : Type := mk_db {
  nvd_raw : list dict;
  nvd_vulnerabilities : list dict
}.

(** What the driver and the server do during one run: whether
    [MongoClient(MONGO_URL)] accepts the connection string (it raises
    InvalidURI otherwise), whether the [server_info()] probe finds a server
    within the timeout and whether it then answers without another driver
    error (OperationFailure, as for a refused authentication), whether a
    delete, a read or an insert goes through, whether the documents of an
    insert can be encoded at all (keys, size: InvalidDocument otherwise,
    which is not a driver error), and how many documents a failing insert
    had already written.  A failed delete leaves the collection as it
    was. *)
Record server : Type := mk_driver {
  uri_ok : bool;
  reachable : bool;
  probe_ok : bool;
  delete_ok : bool;
  find_ok : bool;
  insert_ok : bool;
  encodable : bool;
  written : nat
}.

(** A server whose connection string is accepted, whose probe raises
    nothing but a timeout, and whose inserts can be encoded. *)
Definition mk_server (reachable delete_ok find_ok insert_ok : bool) : server :=
  mk_driver true reachable true delete_ok find_ok insert_ok true 0.

Definition healthy : server := mk_server true true true true.

(** The characters [client[name]] refuses in a database name: space, dot,
    dollar, slash, backslash, NUL and the double quote. *)
Definition invalid_db_chars : list ascii :=
  [ "032"; "046"; "036"; "047"; "092"; "000"; "034" ]%char.

(** [client[name]] raises InvalidName for the empty name and for a name
    with one of these characters, [$external] apart. *)
Definition valid_db_name (name : string) : bool :=
  String.eqb name "$external"
  || (negb (String.eqb name "")
      && forallb (fun c => negb (existsb (Ascii.eqb c) invalid_db_chars))
           (list_ascii_of_string name)).

(** The driver encodes an int in at most 8 bytes, and raises OverflowError
    (not a driver error) for one that does not fit, wherever it is in the
    document. *)
Fixpoint int64_ok (v : value) : bool :=
  match v with
  | VInt z => ((- 2 ^ 63 <=? z) && (z <? 2 ^ 63))%Z
  | VList l =>
      (fix all (l : list value) : bool :=
         match l with
         | [] => true
         | x :: rest => int64_ok x && all rest
         end) l
  | VDict d =>
      (fix all (d : list (string * value)) : bool :=
         match d with
         | [] => true
         | (_, x) :: rest => int64_ok x && all rest
         end) d
  | _ => true
  end.

(** The process environment after [load_dotenv()]. *)
Record environ : Type := mk_environ {
  MONGO_URI : option string;
  MONGO_DB_NAME : option string
}.

(** [not os.getenv(name)]: unset or empty. *)
Definition unset (v : option string) : bool :=
  match v with
  | None => true
  | Some s => String.eqb s ""
  end.

(** The configured database name, once known to be set. *)
Definition db_name (env : environ) : string :=
  match MONGO_DB_NAME env with
  | Some n => n
  | None => ""
  end.

(** [collection.find_one()]. *)
Definition find_one (c : list dict) : option dict :=
  match c with
  | [] => None
  | d :: _ => Some d
  end.

End Mongo.

(** ** transform.py *)

Module Transform.
Import Py Log Mongo.

(** [next((d.get("value") for d in ds if d.get("lang") == "en"), "")]: the
    generator is consumed up to its first yield, so the entries after the
    first English one are not looked at, and [.get("value")] is only called
    on that one. *)
Fixpoint next_en (ds : list value) : result value :=
  match ds with
  | [] => Ok (VStr "")
  | d :: rest =>
      lang <- py_get d "lang" VNone ;;
      if py_eq lang (VStr "en") then py_get d "value" VNone
      else next_en rest
  end.

(** Lines 78-80 and 113: first English entry of a description sequence. *)
Definition english_value (descriptions : value) : result value :=
  ds <- py_iter descriptions ;;
  next_en ds.

(** The keys of the flattened scoring fields, in the order of the dict
    display of lines 88-107. *)
Definition scoring_keys : list string :=
  [ "type"; "version"; "vectorString"; "baseScore"; "accessVector";
    "accessComplexity"; "authentication"; "confidentialityImpact";
    "integrityImpact"; "availabilityImpact"; "baseSeverity";
    "exploitabilityScore"; "impactScore"; "acInsufInfo";
    "obtainAllPrivilege"; "obtainUserPrivilege"; "obtainOtherPrivilege";
    "userInteractionRequired" ].

(** Lines 84-107: [metrics_transformed] from [metrics_data]. *)
Definition metrics_transformed (metrics_data : value) : result dict :=
  if truthy metrics_data then
    m <- py_getitem_int metrics_data 0 ;;
    cvss <- py_get m "cvssData" (VDict []) ;;
    type <- py_get m "type" VNone ;;
    version <- py_get cvss "version" VNone ;;
    vectorString <- py_get cvss "vectorString" VNone ;;
    baseScore <- py_get cvss "baseScore" VNone ;;
    accessVector <- py_get cvss "accessVector" VNone ;;
    accessComplexity <- py_get cvss "accessComplexity" VNone ;;
    authentication <- py_get cvss "authentication" VNone ;;
    confidentialityImpact <- py_get cvss "confidentialityImpact" VNone ;;
    integrityImpact <- py_get cvss "integrityImpact" VNone ;;
    availabilityImpact <- py_get cvss "availabilityImpact" VNone ;;
    baseSeverity <- py_get m "baseSeverity" VNone ;;
    exploitabilityScore <- py_get m "exploitabilityScore" VNone ;;
    impactScore <- py_get m "impactScore" VNone ;;
    acInsufInfo <- py_get m "acInsufInfo" VNone ;;
    obtainAllPrivilege <- py_get m "obtainAllPrivilege" VNone ;;
    obtainUserPrivilege <- py_get m "obtainUserPrivilege" VNone ;;
    obtainOtherPrivilege <- py_get m "obtainOtherPrivilege" VNone ;;
    userInteractionRequired <- py_get m "userInteractionRequired" VNone ;;
    Ok (dict_display
          [ ("type", type);
            ("version", version);
            ("vectorString", vectorString);
            ("baseScore", baseScore);
            ("accessVector", accessVector);
            ("accessComplexity", accessComplexity);
            ("authentication", authentication);
            ("confidentialityImpact", confidentialityImpact);
            ("integrityImpact", integrityImpact);
            ("availabilityImpact", availabilityImpact);
            ("baseSeverity", baseSeverity);
            ("exploitabilityScore", exploitabilityScore);
            ("impactScore", impactScore);
            ("acInsufInfo", acInsufInfo);
            ("obtainAllPrivilege", obtainAllPrivilege);
            ("obtainUserPrivilege", obtainUserPrivilege);
            ("obtainOtherPrivilege", obtainOtherPrivilege);
            ("userInteractionRequired", userInteractionRequired) ])
  else Ok [].

(** Lines 110-114: the loop over the weakness entries. *)
Fixpoint weaknesses_loop (ws : list value) (weaknesses_list : list value)
  : result (list value) :=
  match ws with
  | [] => Ok weaknesses_list
  | w :: rest =>
      type_ <- py_get w "type" VNone ;;
      ds <- py_get w "description" (VList []) ;;
      desc_en <- english_value ds ;;
      weaknesses_loop rest
        (weaknesses_list
           ++ [VDict (dict_display [("type", type_); ("description", desc_en)])])
  end.

(** Line 117, the set comprehension: the condition [ref.get("url")] is
    tested first, then the element [ref.get("url")] is added to the set. *)
Fixpoint url_set (refs : list value) (s : pyset) : result pyset :=
  match refs with
  | [] => Ok s
  | ref :: rest =>
      c <- py_get ref "url" VNone ;;
      if truthy c then
        u <- py_get ref "url" VNone ;;
        s' <- set_add s u ;;
        url_set rest s'
      else url_set rest s
  end.

Section Run.

(** The order in which [list(...)] draws the members of a set: it depends on
    the hashes (randomised per process for strings), so it is a parameter of
    the run.  [utcnow i] is what [datetime.utcnow().isoformat()] returns
    while entry [i] of the batch is being transformed. *)
Variable set_order : list value -> list value.
Variable utcnow : nat -> string.

(** Line 117: [references]. *)
Definition references_of (refs : value) : result value :=
  rs <- py_iter refs ;;
  s <- url_set rs [] ;;
  Ok (VList (set_order s)).

(** Lines 75-131: the body of the per-record [try], up to the record that is
    appended; [collected_at] is the timestamp read last. *)
Definition transform_vuln (collected_at : string) (vuln_item : value)
  : result dict :=
  cve <- py_getitem_str vuln_item "cve" ;;
  descs <- py_get cve "descriptions" (VList []) ;;
  description <- english_value descs ;;
  metrics <- py_get cve "metrics" (VDict []) ;;
  metrics_data <- py_get metrics "cvssMetricV2" (VList []) ;;
  metrics_tr <- metrics_transformed metrics_data ;;
  ws <- py_get cve "weaknesses" (VList []) ;;
  wl <- py_iter ws ;;
  weaknesses_list <- weaknesses_loop wl [] ;;
  refs <- py_get cve "references" (VList []) ;;
  references <- references_of refs ;;
  id <- py_get cve "id" VNone ;;
  sourceIdentifier <- py_get cve "sourceIdentifier" VNone ;;
  published <- py_get cve "published" VNone ;;
  lastModified <- py_get cve "lastModified" VNone ;;
  vulnStatus <- py_get cve "vulnStatus" VNone ;;
  Ok (dict_display
        ([ ("id", id);
           ("sourceIdentifier", sourceIdentifier);
           ("published", published);
           ("lastModified", lastModified);
           ("vulnStatus", vulnStatus);
           ("description", description) ]
         ++ metrics_tr
         ++ [ ("weaknesses", VList weaknesses_list);
              ("references", references);
              ("collected_at", VStr collected_at) ])).

(** Lines 73-136: the loop.  A record that raises is not appended and leaves
    two WARNING records, the message and the traceback. *)
Fixpoint transform_loop (i : nat) (items : list value)
    (vulnerabilities : list dict) (lg : log) : list dict * log :=
  match items with
  | [] => (vulnerabilities, lg)
  | vuln_item :: rest =>
      match transform_vuln (utcnow i) vuln_item with
      | Ok transformed_vuln =>
          transform_loop (S i) rest (vulnerabilities ++ [transformed_vuln]) lg
      | Raise inner_e =>
          transform_loop (S i) rest vulnerabilities
            (lg ++ [warning (RecordFailed inner_e);
                    warning (Traceback inner_e)])
      end
  end.

(** Lines 23-35. *)
Definition load_env (env : environ) : log * result unit :=
  if unset (MONGO_URI env) || unset (MONGO_DB_NAME env) then
    let e := ValueError "MONGO_URL or MONGO_DB not set in .env" in
    ([error (EnvFailed e); error (Traceback e)], Raise e)
  else ([info EnvLoaded], Ok tt).

(** Lines 38-49.  Only the timeout of the probe is caught (logged and
    re-raised); a connection string or a database name the driver refuses,
    or another error of the probe, leaves the script with nothing logged. *)
Definition connect (env : environ) (srv : server) : log * result unit :=
  if negb (uri_ok srv) then ([], Raise InvalidURI)
  else if negb (reachable srv) then
    let e := ServerSelectionTimeoutError in
    ([error (ConnectionFailed e); error (Traceback e)], Raise e)
  else if negb (probe_ok srv) then ([], Raise OperationFailure)
  else if negb (valid_db_name (db_name env)) then ([], Raise InvalidName)
  else ([info (Connected (db_name env))], Ok tt).

(** Lines 52-57: a failed clear is logged and the script goes on. *)
Definition clear_old_data (srv : server) (st : db) : log * db :=
  if delete_ok srv then
    ([info (Cleared (List.length (nvd_vulnerabilities st)))],
     mk_db (nvd_raw st) [])
  else
    ([error (ClearFailed PyMongoError); error (Traceback PyMongoError)], st).

(** Lines 60-68. *)
Definition load_raw_data (srv : server) (st : db) : log * result dict :=
  let body : result (dict * nat) :=
    raw_data <- (if find_ok srv then Ok (find_one (nvd_raw st))
                 else Raise PyMongoError) ;;
    match raw_data with
    | None => Raise (ValueError "No vulnerabilities found in raw data.")
    | Some raw_data =>
        if negb (truthy (VDict raw_data))
           || negb (dict_contains raw_data "vulnerabilities")
        then Raise (ValueError "No vulnerabilities found in raw data.")
        else
          vs <- py_get (VDict raw_data) "vulnerabilities" (VList []) ;;
          n <- py_len vs ;;
          Ok (raw_data, n)
    end in
  match body with
  | Ok (raw_data, n) => ([info (RawLoaded n)], Ok raw_data)
  | Raise e => ([error (RawLoadFailed e); error (Traceback e)], Raise e)
  end.

(** Lines 71-142. *)
Definition transform_data (raw_data : dict) : log * result (list dict) :=
  let items :=
    vs <- py_get (VDict raw_data) "vulnerabilities" (VList []) ;;
    py_iter vs in
  match items with
  | Ok items =>
      let '(vulnerabilities, lg) := transform_loop 0 items [] [] in
      (lg ++ [info (Transformed (List.length vulnerabilities))],
       Ok vulnerabilities)
  | Raise e =>
      ([error (TransformationFailed e); error (Traceback e)], Raise e)
  end.

(** Lines 145-154.  Whatever the insert raises is logged and re-raised;
    the records the insert had already written stay in the collection. *)
Definition store_transformed (srv : server) (vulnerabilities : list dict)
    (st : db) : log * db * result unit :=
  match vulnerabilities with
  | [] => ([warning NothingToInsert], st, Ok tt)
  | _ :: _ =>
      let failed (e : exn) : log * db * result unit :=
        ([error (InsertFailed e); error (Traceback e)],
         mk_db (nvd_raw st)
           (nvd_vulnerabilities st ++ firstn (written srv) vulnerabilities),
         Raise e) in
      if negb (encodable srv) then failed InvalidDocument
      else if insert_ok srv then
        ([info (Inserted (List.length vulnerabilities))],
         mk_db (nvd_raw st) (nvd_vulnerabilities st ++ vulnerabilities),
         Ok tt)
      else failed PyMongoError
  end.

(** How a run of the script ends. *)
Inductive outcome : Type :=
| Completed
| Aborted (e : exn).

Record run : Type := mk_run {
  final : db;
  logged : log;
  ended : outcome
}.

(** The whole script, top to bottom. *)
Definition transformer (env : environ) (srv : server) (st : db) : run :=
  match load_env env with
  | (l1, Raise e) => mk_run st l1 (Aborted e)
  | (l1, Ok _) =>
  match connect env srv with
  | (l2, Raise e) => mk_run st (l1 ++ l2) (Aborted e)
  | (l2, Ok _) =>
  let '(l3, st1) := clear_old_data srv st in
  match load_raw_data srv st1 with
  | (l4, Raise e) => mk_run st1 (l1 ++ l2 ++ l3 ++ l4) (Aborted e)
  | (l4, Ok raw_data) =>
  match transform_data raw_data with
  | (l5, Raise e) => mk_run st1 (l1 ++ l2 ++ l3 ++ l4 ++ l5) (Aborted e)
  | (l5, Ok vulnerabilities) =>
  match store_transformed srv vulnerabilities st1 with
  | (l6, st2, Raise e) =>
      mk_run st2 (l1 ++ l2 ++ l3 ++ l4 ++ l5 ++ l6) (Aborted e)
  | (l6, st2, Ok _) =>
      mk_run st2 (l1 ++ l2 ++ l3 ++ l4 ++ l5 ++ l6 ++ [info Done]) Completed
  end end end end end.

End Run.

End Transform.

(** ** extract.py *)

Module Extract.
Import Py Log Mongo.

(** What the GET of line 37 comes back with: no reply at all (connection
    error, timeout), or a status code and the body, [None] when the body is
    not JSON. *)
Inductive http_reply : Type :=
| NoReply
| Reply (status_code : nat) (json : option value).

(** [response.raise_for_status()] raises for 4xx and 5xx. *)
Definition is_error_status (status_code : nat) : bool :=
  ((400 <=? status_code) && (status_code <? 600))%nat.

(** Lines 33-43; the Python [None] returned on failure is [VNone]. *)
Definition fetch_cve_data (r : http_reply) : log * value :=
  match r with
  | NoReply => ([info Fetching; error FetchFailed], VNone)
  | Reply status_code json =>
      if is_error_status status_code then
        ([info Fetching; error FetchFailed], VNone)
      else
        match json with
        | Some data => ([info Fetching; info (Fetched status_code)], data)
        | None =>
            ([info Fetching; info (Fetched status_code); error FetchFailed],
             VNone)
        end
  end.

(** The documents of a list payload; the driver refuses an item that is not
    a dict. *)
Fixpoint as_documents (l : list value) : option (list dict) :=
  match l with
  | [] => Some []
  | VDict d :: rest =>
      match as_documents rest with
      | Some ds => Some (d :: ds)
      | None => None
      end
  | _ :: _ => None
  end.

(** Lines 58-69, once the collection has been cleared: the insert of the
    documents [docs] of the payload [data].  An int beyond 64 bits or a
    document the driver cannot encode raises outside the driver's exception
    classes, so past the [except] clause. *)
Definition insert_documents (srv : server) (data : value) (docs : list dict)
    (st : db) : log * db * result unit :=
  let partly := mk_db (firstn (written srv) docs) (nvd_vulnerabilities st) in
  if negb (int64_ok data) then
    ([info Connecting; info Clearing], partly, Raise OverflowError)
  else if negb (encodable srv) then
    ([info Connecting; info Clearing], partly, Raise InvalidDocument)
  else if insert_ok srv then
    ([info Connecting; info Clearing; info DataInserted],
     mk_db docs (nvd_vulnerabilities st), Ok tt)
  else
    ([info Connecting; info Clearing; error (MongoError PyMongoError)],
     partly, Ok tt).

(** Lines 45-72.  The driver errors (a refused connection string or
    database name among them) are caught by the [except] clause, logged
    and swallowed; the [TypeError] the driver raises for a list it cannot
    take as documents and the encoding errors are not. *)
Definition save_to_mongo (env : environ) (srv : server) (data : value)
    (st : db) : log * db * result unit :=
  if unset (MONGO_URI env) || unset (MONGO_DB_NAME env) then
    ([error EnvNotSet], st, Ok tt)
  else if negb (uri_ok srv) then
    ([info Connecting; error (MongoError InvalidURI)], st, Ok tt)
  else if negb (reachable srv) then
    ([info Connecting; error (MongoError ServerSelectionTimeoutError)],
     st, Ok tt)
  else if negb (probe_ok srv) then
    ([info Connecting; error (MongoError OperationFailure)], st, Ok tt)
  else if negb (valid_db_name (db_name env)) then
    ([info Connecting; error (MongoError InvalidName)], st, Ok tt)
  else if negb (delete_ok srv) then
    ([info Connecting; info Clearing; error (MongoError PyMongoError)],
     st, Ok tt)
  else
    let cleared := mk_db [] (nvd_vulnerabilities st) in
    match data with
    | VDict d => insert_documents srv data [d] st
    | VList l =>
        match as_documents l with
        | Some (d :: ds) => insert_documents srv data (d :: ds) st
        | _ =>
            ([info Connecting; info Clearing], cleared,
             Raise TypeError_bad_documents)
        end
    | _ =>
        ([info Connecting; info Clearing; error FormatNotSupported],
         cleared, Ok tt)
    end.

(** Lines 74-79. *)
Definition main (env : environ) (srv : server) (r : http_reply) (st : db)
  : log * db * result unit :=
  let '(l1, data) := fetch_cve_data r in
  if truthy data then
    let '(l2, st', res) := save_to_mongo env srv data st in
    (l1 ++ l2, st', res)
  else (l1 ++ [error NoDataFetched], st, Ok tt).

End Extract.

(** ** Vocabulary of the properties *)

Module Notions.
Import Py Log Mongo Transform.

(** [d.get(k, default)] on a dict. *)
Definition get_or (d : dict) (k : string) (default : value) : value :=
  match dict_get d k with
  | Some x => x
  | None => default
  end.

(** A description entry whose language tag is ["en"]. *)
Definition english (entry : value) : bool :=
  match entry with
  | VDict e => py_eq (get_or e "lang" VNone) (VStr "en")
  | _ => false
  end.

(** The [value] of a description entry, [None] when it has none. *)
Definition entry_value (entry : value) : value :=
  match entry with
  | VDict e => get_or e "value" VNone
  | _ => VNone
  end.

(** The scoring fields read from the [cvssData] sub-object; the others are
    read from the metric entry itself. *)
Definition from_cvss (k : string) : bool :=
  existsb (String.eqb k)
    [ "version"; "vectorString"; "baseScore"; "accessVector";
      "accessComplexity"; "authentication"; "confidentialityImpact";
      "integrityImpact"; "availabilityImpact" ].

(** What scoring field [k] is when derived from the metric entry [m]. *)
Definition scoring_field (m : value) (k : string) : result value :=
  if from_cvss k then
    cvss <- py_get m "cvssData" (VDict []) ;;
    py_get cvss k VNone
  else py_get m k VNone.

(** A reference entry without a [url] key. *)
Definition lacks_url (ref : value) : bool :=
  match ref with
  | VDict e => negb (dict_contains e "url")
  | _ => false
  end.

(** No member occurs twice, and no two different members are equal under
    Python's [==] (as [1], [1.0] and [True] are). *)
Definition py_distinct (l : list value) : Prop :=
  NoDup l /\
  forall a b, In a l -> In b l -> py_eq a b = true -> a = b.

(** What the per-record [try] body computes before it reads the clock and
    before the set of URLs is listed. *)
Record parts : Type := mk_parts {
  p_id : value;
  p_sourceIdentifier : value;
  p_published : value;
  p_lastModified : value;
  p_vulnStatus : value;
  p_description : value;
  p_metrics : dict;
  p_weaknesses : list value;
  p_urls : pyset
}.

Definition project (vuln_item : value) : result parts :=
  cve <- py_getitem_str vuln_item "cve" ;;
  descs <- py_get cve "descriptions" (VList []) ;;
  description <- english_value descs ;;
  metrics <- py_get cve "metrics" (VDict []) ;;
  metrics_data <- py_get metrics "cvssMetricV2" (VList []) ;;
  metrics_tr <- metrics_transformed metrics_data ;;
  ws <- py_get cve "weaknesses" (VList []) ;;
  wl <- py_iter ws ;;
  weaknesses_list <- weaknesses_loop wl [] ;;
  refs <- py_get cve "references" (VList []) ;;
  rs <- py_iter refs ;;
  s <- url_set rs [] ;;
  id <- py_get cve "id" VNone ;;
  sourceIdentifier <- py_get cve "sourceIdentifier" VNone ;;
  published <- py_get cve "published" VNone ;;
  lastModified <- py_get cve "lastModified" VNone ;;
  vulnStatus <- py_get cve "vulnStatus" VNone ;;
  Ok (mk_parts id sourceIdentifier published lastModified vulnStatus
        description metrics_tr weaknesses_list s).

(** The items of the record built from the parts, in display order. *)
Definition items_of (set_order : list value -> list value)
    (collected_at : string) (p : parts) : list (string * value) :=
  [ ("id", p_id p);
    ("sourceIdentifier", p_sourceIdentifier p);
    ("published", p_published p);
    ("lastModified", p_lastModified p);
    ("vulnStatus", p_vulnStatus p);
    ("description", p_description p) ]
  ++ p_metrics p
  ++ [ ("weaknesses", VList (p_weaknesses p));
       ("references", VList (set_order (p_urls p)));
       ("collected_at", VStr collected_at) ].

(** The exception the projection of an entry raises, if any. *)
Definition projection_error (vuln_item : value) : option exn :=
  match project vuln_item with
  | Ok _ => None
  | Raise e => Some e
  end.

Definition malformed (vuln_item : value) : bool :=
  match projection_error vuln_item with
  | Some _ => true
  | None => false
  end.

(** The exceptions raised over a batch, in order. *)
Fixpoint errors_of (items : list value) : list exn :=
  match items with
  | [] => []
  | x :: rest =>
      match projection_error x with
      | Some e => e :: errors_of rest
      | None => errors_of rest
      end
  end.

(** The records of a batch: entry number [i + k] of the payload, when its
    projection succeeds, gives the record stamped [utcnow (i + k)]. *)
Fixpoint records_of (set_order : list value -> list value)
    (utcnow : nat -> string) (i : nat) (items : list value) : list dict :=
  match items with
  | [] => []
  | x :: rest =>
      match project x with
      | Ok p =>
          dict_display (items_of set_order (utcnow i) p)
          :: records_of set_order utcnow (S i) rest
      | Raise _ => records_of set_order utcnow (S i) rest
      end
  end.

(** Two fields agree: same key, and same value unless the key is
    [collected_at]; [references], a set, is compared up to order. *)
Definition same_field (f1 f2 : string * value) : Prop :=
  fst f1 = fst f2 /\
  (fst f1 = "collected_at"
   \/ snd f1 = snd f2
   \/ (fst f1 = "references" /\
       exists l1 l2, snd f1 = VList l1 /\ snd f2 = VList l2 /\
                     Permutation l1 l2)).

Definition same_record (r1 r2 : dict) : Prop := Forall2 same_field r1 r2.

(** The keys every transformed record has besides the scoring keys. *)
Definition base_keys : list string :=
  [ "id"; "sourceIdentifier"; "published"; "lastModified"; "vulnStatus";
    "description"; "weaknesses"; "references"; "collected_at" ].

(** A record that has every base key. *)
Definition complete (rec : dict) : Prop :=
  forall k, In k base_keys -> dict_contains rec k = true.

(** What the loop logs for the exceptions of a batch. *)
Definition warnings_for (es : list exn) : log :=
  flat_map (fun e => [warning (RecordFailed e); warning (Traceback e)]) es.

(** The entries the loop of a run will go through, when the server answers:
    those of the [vulnerabilities] of the first raw document. *)
Definition batch (st : db) : result (list value) :=
  match load_raw_data healthy (mk_db (nvd_raw st) []) with
  | (_, Ok raw_data) =>
      vs <- py_get (VDict raw_data) "vulnerabilities" (VList []) ;;
      py_iter vs
  | (_, Raise e) => Raise e
  end.

End Notions.

(** ** Sample data *)

Module Samples.
Import Py Log Mongo Transform Notions.

Definition entry (lang text : string) : value :=
  VDict [("lang", VStr lang); ("value", VStr text)].

Definition vuln (cve : dict) : value := VDict [("cve", VDict cve)].

(** A record with a French then an English description, no metrics, one
    weakness, and the references [http://a], [http://a] and an entry without
    a URL. *)
Definition cve_xss : dict :=
  [ ("id", VStr "CVE-2024-0001");
    ("descriptions", VList [entry "fr" "..."; entry "en" "desc-en"]);
    ("weaknesses",
     VList [VDict [("type", VStr "CWE-79");
                   ("description", VList [entry "en" "XSS"])]]);
    ("references",
     VList [VDict [("url", VStr "http://a")];
            VDict [("url", VStr "http://a")];
            VDict []]) ].

(** A record whose only description is French. *)
Definition cve_fr : dict :=
  [ ("id", VStr "CVE-2024-0002");
    ("descriptions", VList [entry "fr" "..."]) ].

(** A record whose first English description has no [value]; a second
    English description follows it. *)
Definition cve_no_value : dict :=
  [ ("id", VStr "CVE-2024-0003");
    ("descriptions",
     VList [entry "fr" "..."; VDict [("lang", VStr "en")];
            entry "en" "later"]) ].

Definition metric (type severity vector : string) (score : Q) : value :=
  VDict [ ("type", VStr type);
          ("cvssData",
           VDict [("version", VStr "2.0"); ("vectorString", VStr vector);
                  ("baseScore", VFloat score)]);
          ("baseSeverity", VStr severity);
          ("acInsufInfo", VBool false) ].

(** A record with two [cvssMetricV2] entries. *)
Definition cve_scored : dict :=
  [ ("id", VStr "CVE-2024-0004");
    ("metrics",
     VDict [("cvssMetricV2",
             VList [metric "Primary" "HIGH" "AV:N/AC:L/Au:N/C:P/I:P/A:P"
                      (75 # 10);
                    metric "Secondary" "LOW" "AV:L/AC:H/Au:S/C:N/I:N/A:P"
                      (10 # 10)])]) ].

(** Two records that differ in one reference entry: an empty [url] in the
    first, no [url] in the second. *)
Definition cve_empty_url : dict :=
  [ ("id", VStr "CVE-2024-0005");
    ("references",
     VList [VDict [("url", VStr "http://a")];
            VDict [("url", VStr ""); ("source", VStr "x")];
            VDict [("url", VStr "http://b")]]) ].

Definition cve_without_url : dict :=
  [ ("id", VStr "CVE-2024-0005");
    ("references",
     VList [VDict [("url", VStr "http://a")];
            VDict [("source", VStr "x")];
            VDict [("url", VStr "http://b")]]) ].

Definition listing (s : list value) : list value := s.
Definition reversed (s : list value) : list value := rev s.
Definition noon (i : nat) : string := "2025-01-01T12:00:00".
Definition midnight (i : nat) : string := "2025-01-02T00:00:00".

Definition env_ok : environ :=
  mk_environ (Some "mongodb://localhost:27017") (Some "nvd").

(** A raw store holding one payload of three entries, the second of them
    malformed; a raw document without the [vulnerabilities] field. *)
Definition payload : dict :=
  [ ("resultsPerPage", VInt 3);
    ("vulnerabilities",
     VList [vuln cve_empty_url; VDict []; vuln cve_scored]) ].

Definition payload_no_field : dict := [ ("resultsPerPage", VInt 0) ].

Definition stale : dict := [ ("id", VStr "CVE-1999-0001") ].

End Samples.

(** ** Records the projection accepts *)

Module Schema.
Import Py Log Mongo Transform Extract Notions Samples.

Definition is_dict (v : value) : bool :=
  match v with
  | VDict _ => true
  | _ => false
  end.

(** A list of description entries, each an object. *)
Definition descriptions_ok (v : value) : bool :=
  match v with
  | VList ds => forallb is_dict ds
  | _ => false
  end.

(** A weakness entry: an object whose [description], when present, is a
    list of objects. *)
Definition weakness_ok (w : value) : bool :=
  match w with
  | VDict e => descriptions_ok (get_or e "description" (VList []))
  | _ => false
  end.

(** A reference entry: an object whose [url] is falsy or hashable. *)
Definition reference_ok (r : value) : bool :=
  match r with
  | VDict e =>
      negb (truthy (get_or e "url" VNone)) || hashable (get_or e "url" VNone)
  | _ => false
  end.

(** A metric entry: an object whose [cvssData], when present, is an
    object. *)
Definition metric_ok (m : value) : bool :=
  match m with
  | VDict e => is_dict (get_or e "cvssData" (VDict []))
  | _ => false
  end.

(** A [metrics] block: an object whose [cvssMetricV2], when present, is a
    list that is empty or starts with a metric entry. *)
Definition metrics_ok (v : value) : bool :=
  match v with
  | VDict ms =>
      match get_or ms "cvssMetricV2" (VList []) with
      | VList [] => true
      | VList (m :: _) => metric_ok m
      | _ => false
      end
  | _ => false
  end.

Definition weaknesses_ok (v : value) : bool :=
  match v with
  | VList ws => forallb weakness_ok ws
  | _ => false
  end.

Definition references_ok (v : value) : bool :=
  match v with
  | VList rs => forallb reference_ok rs
  | _ => false
  end.

(** An entry of the batch shaped as the API documents it: an object with a
    [cve] object whose [descriptions], [metrics], [weaknesses] and
    [references], when present, have the shapes above. *)
Definition conforming (vuln_item : value) : bool :=
  match vuln_item with
  | VDict it =>
      match dict_get it "cve" with
      | Some (VDict cve) =>
          descriptions_ok (get_or cve "descriptions" (VList []))
          && metrics_ok (get_or cve "metrics" (VDict []))
          && weaknesses_ok (get_or cve "weaknesses" (VList []))
          && references_ok (get_or cve "references" (VList []))
      | _ => false
      end
  | _ => false
  end.

(** The keys of a record before and after the scoring fields. *)
Definition head_keys : list string :=
  [ "id"; "sourceIdentifier"; "published"; "lastModified"; "vulnStatus";
    "description" ].

Definition tail_keys : list string :=
  [ "weaknesses"; "references"; "collected_at" ].

(** The fields copied from the source as they are. *)
Definition copied_keys : list string :=
  [ "id"; "sourceIdentifier"; "published"; "lastModified"; "vulnStatus" ].

(** The value of the first English entry of a list of description entries,
    the empty string when there is none. *)
Definition first_english (ds : list value) : value :=
  match find english ds with
  | Some d => entry_value d
  | None => VStr ""
  end.

(** The output weakness [d] is the one made from the source entry [w]:
    its [type], and the value of the first English entry among the entries
    [ds] of its description list. *)
Definition weakness_of (w d : value) : Prop :=
  exists e ds,
    w = VDict e /\
    py_iter (get_or e "description" (VList [])) = Ok ds /\
    d = VDict [("type", get_or e "type" VNone);
               ("description", first_english ds)].

(** The documents the fetcher stores for a payload it accepts. *)
Definition documents_of (data : value) : option (list dict) :=
  match data with
  | VDict d => Some [d]
  | VList l => as_documents l
  | _ => None
  end.

(** The database and the way a run of [main] ends. *)
Definition db_after (out : log * db * result unit) : db := snd (fst out).
Definition log_after (out : log * db * result unit) : log := fst (fst out).
Definition result_after (out : log * db * result unit) : result unit :=
  snd out.

(** A server on which only the delete fails. *)
Definition no_delete : server := mk_server true false true true.

(** The connection block of a script goes through: the configuration is
    set, the driver accepts the connection string and the database name,
    and the probe finds a server that answers. *)
Definition connects (env : environ) (srv : server) : bool :=
  negb (unset (MONGO_URI env) || unset (MONGO_DB_NAME env))
  && uri_ok srv && reachable srv && probe_ok srv
  && valid_db_name (db_name env).


(** An insert goes through: the documents can be encoded and the server
    takes them. *)
Definition inserts (srv : server) : bool := encodable srv && insert_ok srv.

(** A weakness with three descriptions: French, English, English. *)
Definition cve_weak_many : dict :=
  [ ("id", VStr "CVE-2024-0010");
    ("weaknesses",
     VList [VDict [("type", VStr "Primary");
                   ("description",
                    VList [entry "fr" "CWE-79 (fr)"; entry "en" "CWE-79";
                           entry "en" "CWE-80"])];
            VDict [("type", VStr "Secondary");
                   ("description", VList [entry "fr" "CWE-20 (fr)"])]]) ].


(** More sample records: a weakness list with a French-only entry, a
    reference whose [url] is a list, an entry without [cve]. *)
Definition cve_weak : dict :=
  [ ("id", VStr "CVE-2024-0006");
    ("published", VStr "2024-02-01T00:00:00.000");
    ("weaknesses",
     VList [VDict [("type", VStr "Primary");
                   ("description", VList [entry "en" "CWE-79"])];
            VDict [("description", VList [entry "fr" "CWE-20"])]]) ].

Definition cve_bad_reference : dict :=
  [ ("id", VStr "CVE-2024-0007");
    ("references", VList [VDict [("url", VList [VStr "http://a"])]]) ].

Definition no_cve : value := VDict [("id", VStr "CVE-2024-0008")].

Definition payload_null : dict := [ ("vulnerabilities", VNone) ].

Definition payload_bad : dict :=
  [ ("vulnerabilities", VList [no_cve; vuln cve_bad_reference]) ].

End Schema.

(** * Properties *)

(** ** Facts about the Python operations *)

Module PyFacts.
Import Py Notions.

Lemma py_get_dict (d : dict) (k : string) (default : value) :
  py_get (VDict d) k default = Ok (get_or d k default).
Proof.
  unfold py_get, get_or. destruct (dict_get d k); reflexivity.
Qed.

Lemma py_get_ok_inv (v : value) (k : string) (default x : value) :
  py_get v k default = Ok x ->
  exists d, v = VDict d /\ x = get_or d k default.
Proof.
  destruct v; simpl; try discriminate.
  intros H. exists d. split; [reflexivity|].
  unfold get_or. destruct (dict_get d k); congruence.
Qed.

Lemma dict_setitem_fresh (d : dict) (k : string) (v : value) :
  ~ In k (dict_keys d) -> dict_setitem d k v = d ++ [(k, v)].
Proof.
  induction d as [|[k' v'] d IH]; simpl; intros Hk.
  - reflexivity.
  - destruct (String.eqb_spec k' k) as [->|Hne].
    + exfalso. apply Hk. now left.
    + rewrite IH; [reflexivity|]. intros Hin. apply Hk. now right.
Qed.

Lemma fold_setitem_fresh (items acc : dict) :
  NoDup (dict_keys (acc ++ items)) ->
  fold_left (fun d kv => dict_setitem d (fst kv) (snd kv)) items acc
  = acc ++ items.
Proof.
  revert acc. induction items as [|[k v] items IH]; intros acc Hnd; simpl.
  - now rewrite app_nil_r.
  - rewrite dict_setitem_fresh.
    + rewrite IH; rewrite <- app_assoc; simpl; [reflexivity | exact Hnd].
    + unfold dict_keys in *. rewrite map_app in Hnd. simpl in Hnd.
      apply NoDup_remove_2 in Hnd. intros Hin. apply Hnd.
      apply in_or_app. now left.
Qed.

(** A display whose keys are all different is the list of its items. *)
Lemma dict_display_nodup (items : dict) :
  NoDup (dict_keys items) -> dict_display items = items.
Proof.
  intros H. unfold dict_display. now rewrite fold_setitem_fresh.
Qed.

Lemma dict_get_app (d1 d2 : dict) (k : string) :
  dict_get (d1 ++ d2) k =
  match dict_get d1 k with
  | Some v => Some v
  | None => dict_get d2 k
  end.
Proof.
  induction d1 as [|[k' v'] d1 IH]; simpl; [reflexivity|].
  destruct (String.eqb k' k); [reflexivity | exact IH].
Qed.

Lemma dict_get_not_key (d : dict) (k : string) :
  ~ In k (dict_keys d) -> dict_get d k = None.
Proof.
  induction d as [|[k' v'] d IH]; simpl; intros H; [reflexivity|].
  destruct (String.eqb_spec k' k) as [->|Hne].
  - exfalso. apply H. now left.
  - apply IH. intros Hin. apply H. now right.
Qed.

(** *** Equality *)

Lemma Qeq_bool_sym (x y : Q) : Qeq_bool x y = Qeq_bool y x.
Proof.
  destruct (Qeq_bool x y) eqn:E1, (Qeq_bool y x) eqn:E2; try reflexivity.
  - apply Qeq_bool_iff in E1. symmetry in E1.
    apply Qeq_bool_iff in E1. congruence.
  - apply Qeq_bool_iff in E2. symmetry in E2.
    apply Qeq_bool_iff in E2. congruence.
Qed.

Lemma py_eq_sym (a b : value) : py_eq a b = py_eq b a.
Proof.
  unfold py_eq.
  destruct (num_val a) eqn:Ea, (num_val b) eqn:Eb; try reflexivity.
  - apply Qeq_bool_sym.
  - destruct a, b; try reflexivity; try discriminate.
    apply String.eqb_sym.
Qed.

Lemma py_eq_refl (a : value) : hashable a = true -> py_eq a a = true.
Proof.
  destruct a; simpl; intros H; try discriminate; unfold py_eq; simpl;
    try reflexivity.
  - apply Qeq_bool_iff. reflexivity.
  - apply Qeq_bool_iff. reflexivity.
  - apply Qeq_bool_iff. reflexivity.
  - apply String.eqb_refl.
Qed.

(** Only the string itself equals a string. *)
Lemma py_eq_str (a : value) (s : string) :
  py_eq a (VStr s) = true -> a = VStr s.
Proof.
  unfold py_eq. destruct a; simpl; try discriminate.
  intros H. apply String.eqb_eq in H. now subst.
Qed.

End PyFacts.

(** ** Facts about the transformation *)

Module TransformFacts.
Import Py Log Mongo Transform Notions PyFacts.

Lemma bind_ok_inv {A B : Type} (r : result A) (k : A -> result B) (b : B) :
  bind r k = Ok b -> exists a, r = Ok a /\ k a = Ok b.
Proof.
  destruct r as [a|e]; simpl; intros H; [|discriminate].
  exists a. split; [reflexivity | exact H].
Qed.

(** Peel the leading binds of a hypothesis [H : ... = Ok _]. *)
Ltac bind_inv H :=
  repeat
    (let a := fresh "a" in
     let Ha := fresh "Ha" in
     apply bind_ok_inv in H; destruct H as (a & Ha & H)).

(** Case on the leading bind of the goal. *)
Ltac bind_step :=
  match goal with
  | |- context [bind (bind ?r _) _] => destruct r; cbn [bind]; try reflexivity
  | |- context [bind ?r _] => destruct r; cbn [bind]; try reflexivity
  end.

(** *** First English entry *)

Lemma py_get_lang_english (d : value) (lang : value) :
  py_get d "lang" VNone = Ok lang -> py_eq lang (VStr "en") = english d.
Proof.
  intros H. apply py_get_ok_inv in H. destruct H as (e & -> & ->).
  reflexivity.
Qed.

Lemma py_get_value_entry (d v : value) :
  py_get d "value" VNone = Ok v -> v = entry_value d.
Proof.
  intros H. apply py_get_ok_inv in H. destruct H as (e & -> & ->).
  reflexivity.
Qed.

(** When the scan yields, it yields the value of the first English entry,
    whatever follows that entry. *)
Lemma next_en_first (pre post : list value) (d v : value) :
  Forall (fun x => english x = false) pre ->
  english d = true ->
  next_en (pre ++ d :: post) = Ok v ->
  v = entry_value d.
Proof.
  intros Hpre Hd. induction Hpre as [|x pre Hx _ IH]; simpl; intros H.
  - apply bind_ok_inv in H. destruct H as (lang & Hl & H).
    rewrite (py_get_lang_english _ _ Hl), Hd in H.
    now apply py_get_value_entry.
  - apply bind_ok_inv in H. destruct H as (lang & Hl & H).
    rewrite (py_get_lang_english _ _ Hl), Hx in H. now apply IH.
Qed.

Lemma next_en_none (ds : list value) (v : value) :
  Forall (fun x => english x = false) ds ->
  next_en ds = Ok v ->
  v = VStr "".
Proof.
  intros Hds. induction Hds as [|x ds Hx _ IH]; simpl; intros H.
  - congruence.
  - apply bind_ok_inv in H. destruct H as (lang & Hl & H).
    rewrite (py_get_lang_english _ _ Hl), Hx in H. now apply IH.
Qed.

(** The scan does yield when the entries up to the first English one are
    objects: nothing after that entry is evaluated. *)
Lemma next_en_yields (pre : list dict) (e : dict) (post : list value) :
  Forall (fun x => english (VDict x) = false) pre ->
  english (VDict e) = true ->
  next_en (map VDict pre ++ VDict e :: post) = Ok (get_or e "value" VNone).
Proof.
  intros Hpre He.
  induction Hpre as [|x pre Hx _ IH]; cbn [map app next_en];
    rewrite py_get_dict; cbn [bind].
  - unfold english in He. rewrite He. apply py_get_dict.
  - unfold english in Hx. rewrite Hx. exact IH.
Qed.

(** *** Weaknesses *)

(** One [{type, description}] per weakness entry, in order, the description
    being the first English value of the entry's own [description] list. *)
Lemma weaknesses_loop_spec (ws : list value) :
  forall (acc out : list value),
    weaknesses_loop ws acc = Ok out ->
    exists ds,
      out = acc ++ ds /\
      Forall2
        (fun w d =>
           exists e v,
             w = VDict e /\
             english_value (get_or e "description" (VList [])) = Ok v /\
             d = VDict [("type", get_or e "type" VNone); ("description", v)])
        ws ds.
Proof.
  induction ws as [|w ws IH]; intros acc out; cbn [weaknesses_loop].
  - intros H. inversion H; subst. exists []. split; [|constructor].
    now rewrite app_nil_r.
  - intros H. apply bind_ok_inv in H. destruct H as (type_ & Ht & H).
    apply py_get_ok_inv in Ht. destruct Ht as (e & -> & ->).
    rewrite py_get_dict in H. cbn [bind] in H.
    apply bind_ok_inv in H. destruct H as (v & Hv & H).
    destruct (IH _ _ H) as (ds & -> & Hds).
    eexists. split; [rewrite <- app_assoc; reflexivity|].
    constructor; [|exact Hds].
    exists e, v. now repeat split.
Qed.

(** *** Scoring fields *)

Lemma py_getitem_int_head (m : value) (later : list value) :
  py_getitem_int (VList (m :: later)) 0 = Ok m.
Proof.
  unfold py_getitem_int, seq_index. simpl Z.leb. cbv iota.
  destruct (Z.ltb_spec 0 (Z.of_nat (List.length (m :: later)))) as [_|H].
  - reflexivity.
  - simpl List.length in H. lia.
Qed.

Lemma metrics_transformed_falsy (metrics_data : value) :
  truthy metrics_data = false -> metrics_transformed metrics_data = Ok [].
Proof.
  intros H. unfold metrics_transformed. now rewrite H.
Qed.

(** The scoring dict is empty or has exactly the scoring keys, in order. *)
Lemma metrics_transformed_keys (metrics_data : value) (mt : dict) :
  metrics_transformed metrics_data = Ok mt ->
  mt = [] \/ dict_keys mt = scoring_keys.
Proof.
  unfold metrics_transformed. destruct (truthy metrics_data).
  - intros H. bind_inv H. right. inversion H. reflexivity.
  - intros H. left. congruence.
Qed.

(** With a non-empty list, every scoring field is the one derived from
    element 0. *)
Lemma metrics_transformed_head (m : value) (later : list value) (mt : dict) :
  metrics_transformed (VList (m :: later)) = Ok mt ->
  dict_keys mt = scoring_keys /\
  forall k, In k scoring_keys ->
    exists v, scoring_field m k = Ok v /\ dict_get mt k = Some v.
Proof.
  unfold metrics_transformed. simpl truthy. cbv iota.
  rewrite py_getitem_int_head. cbn [bind].
  intros H. apply bind_ok_inv in H. destruct H as (cvss & Hcvss & H).
  bind_inv H. inversion H; subst mt; clear H.
  split; [reflexivity|].
  intros k Hk. simpl in Hk.
  repeat (destruct Hk as [<-|Hk];
          [ eexists; split;
            [ unfold scoring_field; simpl from_cvss; cbv iota;
              try rewrite Hcvss; cbn [bind]; eassumption
            | reflexivity ] | ]).
  contradiction.
Qed.

(** *** The set of URLs *)

Lemma existsb_py_eq_false (v : value) (s : pyset) :
  existsb (py_eq v) s = false -> forall x, In x s -> py_eq v x = false.
Proof.
  intros H x Hx.
  destruct (py_eq v x) eqn:E; [|reflexivity].
  assert (existsb (py_eq v) s = true) by (apply existsb_exists; eauto).
  congruence.
Qed.

(** Adding a member keeps a set a set. *)
Lemma set_add_distinct (s s' : pyset) (v : value) :
  py_distinct s -> Forall (fun x => hashable x = true) s ->
  set_add s v = Ok s' ->
  py_distinct s' /\ Forall (fun x => hashable x = true) s'.
Proof.
  unfold set_add. intros [Hnd Heq] Hh.
  destruct (hashable v) eqn:Hv; [|discriminate].
  destruct (existsb (py_eq v) s) eqn:Hex; intros H; inversion H; subst s';
    clear H.
  - split; [split|]; assumption.
  - pose proof (existsb_py_eq_false _ _ Hex) as Hne.
    assert (Hnotin : ~ In v s).
    { intros Hin. pose proof (py_eq_refl v Hv) as Hr.
      rewrite (Hne v Hin) in Hr. discriminate. }
    split; [split|].
    + apply NoDup_app; [exact Hnd | repeat constructor; intros [] |].
      intros x Hx [<-|[]]. contradiction.
    + intros a b Ha Hb Hab.
      apply in_app_or in Ha. apply in_app_or in Hb.
      destruct Ha as [Ha|[<-|[]]], Hb as [Hb|[<-|[]]].
      * now apply Heq.
      * rewrite py_eq_sym, (Hne a Ha) in Hab. discriminate.
      * rewrite (Hne b Hb) in Hab. discriminate.
      * reflexivity.
    + apply Forall_app. split; [exact Hh | now constructor].
Qed.

(** The set only grows, and afterwards holds a member equal to the one
    added. *)
Lemma set_add_member (s s' : pyset) (v : value) :
  set_add s v = Ok s' ->
  incl s s' /\ (exists u, In u s' /\ py_eq u v = true) /\
  (forall u, In u s' -> In u s \/ u = v).
Proof.
  unfold set_add. destruct (hashable v) eqn:Hv; [|discriminate].
  destruct (existsb (py_eq v) s) eqn:Hex; intros H; inversion H; subst s';
    clear H.
  - split; [apply incl_refl | split].
    + apply existsb_exists in Hex. destruct Hex as (x & Hx & Hvx).
      exists x. split; [exact Hx | now rewrite py_eq_sym].
    + now left.
  - split; [now apply incl_appl, incl_refl | split].
    + exists v. split; [apply in_or_app; right; now left | now apply py_eq_refl].
    + intros u Hu. apply in_app_or in Hu. destruct Hu as [Hu|[<-|[]]]; auto.
Qed.

Lemma url_set_distinct (refs : list value) (s s' : pyset) :
  py_distinct s -> Forall (fun x => hashable x = true) s ->
  url_set refs s = Ok s' ->
  py_distinct s' /\ Forall (fun x => hashable x = true) s'.
Proof.
  revert s. induction refs as [|ref refs IH]; intros s Hd Hh; simpl.
  - intros H. inversion H; subst. now split.
  - intros H. apply bind_ok_inv in H. destruct H as (c & Hc & H).
    destruct (truthy c).
    + bind_inv H. destruct (set_add_distinct _ _ _ Hd Hh Ha0) as [Hd' Hh'].
      exact (IH _ Hd' Hh' H).
    + exact (IH _ Hd Hh H).
Qed.

(** Every member of the result was in the set already or is the truthy
    [url] of one of the entries. *)
Lemma url_set_sound (refs : list value) (s s' : pyset) :
  url_set refs s = Ok s' ->
  forall u, In u s' ->
    In u s \/
    exists e, In (VDict e) refs /\ dict_get e "url" = Some u /\
              truthy u = true.
Proof.
  revert s. induction refs as [|ref refs IH]; intros s; simpl.
  - intros H u Hu. inversion H; subst. now left.
  - intros H u Hu. apply bind_ok_inv in H. destruct H as (c & Hc & H).
    apply py_get_ok_inv in Hc. destruct Hc as (e & -> & ->).
    destruct (truthy (get_or e "url" VNone)) eqn:Ht.
    + rewrite py_get_dict in H. cbn [bind] in H.
      apply bind_ok_inv in H. destruct H as (s1 & Hadd & H).
      destruct (IH _ H u Hu) as [Hin|(e' & He' & Hget & Htr)].
      * destruct (set_add_member _ _ _ Hadd) as (_ & _ & Hfrom).
        destruct (Hfrom u Hin) as [Hs | ->]; [now left|].
        right. exists e. split; [now left | split; [|exact Ht]].
        unfold get_or in *. destruct (dict_get e "url"); [reflexivity|].
        discriminate.
      * right. exists e'. split; [now right | now split].
    + destruct (IH _ H u Hu) as [Hin|(e' & He' & Hget & Htr)];
        [now left|].
      right. exists e'. split; [now right | now split].
Qed.

(** The set only grows, and every truthy [url] of an entry ends up
    represented by an equal member. *)
Lemma url_set_complete (refs : list value) (s s' : pyset) :
  url_set refs s = Ok s' ->
  incl s s' /\
  forall e u, In (VDict e) refs -> dict_get e "url" = Some u ->
    truthy u = true -> exists u', In u' s' /\ py_eq u' u = true.
Proof.
  revert s. induction refs as [|ref refs IH]; intros s; simpl.
  - intros H. inversion H; subst. split; [apply incl_refl|].
    intros e u [].
  - intros H. apply bind_ok_inv in H. destruct H as (c & Hc & H).
    apply py_get_ok_inv in Hc. destruct Hc as (e0 & -> & ->).
    destruct (truthy (get_or e0 "url" VNone)) eqn:Ht.
    + rewrite py_get_dict in H. cbn [bind] in H.
      apply bind_ok_inv in H. destruct H as (s1 & Hadd & H).
      destruct (IH _ H) as [Hincl Hall].
      destruct (set_add_member _ _ _ Hadd) as (Hincl1 & (u1 & Hu1 & Heq1) & _).
      split; [intros x Hx; apply Hincl, Hincl1, Hx|].
      intros e u [Hin|Hin] Hget Htr.
      * inversion Hin; subst e0. unfold get_or in Heq1. rewrite Hget in Heq1.
        exists u1. split; [apply Hincl, Hu1 | exact Heq1].
      * eapply Hall; eassumption.
    + destruct (IH _ H) as [Hincl Hall]. split; [exact Hincl|].
      intros e u [Hin|Hin] Hget Htr.
      * inversion Hin; subst e0. unfold get_or in Ht. rewrite Hget in Ht.
        congruence.
      * eapply Hall; eassumption.
Qed.

(** An entry whose [url] is falsy is passed over, whether the key is there
    or not. *)
Lemma url_set_falsy (e : dict) (rest : list value) (s : pyset) :
  truthy (get_or e "url" VNone) = false ->
  url_set (VDict e :: rest) s = url_set rest s.
Proof.
  intros H. cbn [url_set]. rewrite py_get_dict. cbn [bind]. now rewrite H.
Qed.

Lemma url_set_app (a b : list value) (s : pyset) :
  url_set (a ++ b) s = (s' <- url_set a s ;; url_set b s').
Proof.
  revert s. induction a as [|x a IH]; intros s; cbn [app url_set].
  - reflexivity.
  - destruct (py_get x "url" VNone) as [c|]; cbn [bind]; [|reflexivity].
    destruct (truthy c).
    + destruct (set_add s c); cbn [bind]; [apply IH | reflexivity].
    + apply IH.
Qed.

Lemma py_distinct_perm (l l' : list value) :
  Permutation l' l -> py_distinct l -> py_distinct l'.
Proof.
  intros Hp [Hnd Heq]. split.
  - eapply Permutation_NoDup; [symmetry; exact Hp | exact Hnd].
  - intros a b Ha Hb. apply Heq; eapply Permutation_in; eassumption.
Qed.

Lemma py_distinct_nil : py_distinct [].
Proof.
  split; [constructor | intros a b []].
Qed.

(** *** The record *)

(** The per-record body is the projection followed by the display of the
    record: the listing order of the set and the clock only enter there. *)
Lemma transform_vuln_project (set_order : list value -> list value)
    (collected_at : string) (vuln_item : value) :
  transform_vuln set_order collected_at vuln_item =
  (p <- project vuln_item ;;
   Ok (dict_display (items_of set_order collected_at p))).
Proof.
  unfold transform_vuln, project, references_of.
  repeat bind_step.
Qed.

(** What a successful projection read, and from where. *)
Lemma project_ok_inv (vuln_item : value) (p : parts) :
  project vuln_item = Ok p ->
  exists cve,
    py_getitem_str vuln_item "cve" = Ok (VDict cve) /\
    english_value (get_or cve "descriptions" (VList [])) = Ok (p_description p) /\
    (exists ms, get_or cve "metrics" (VDict []) = VDict ms /\
       metrics_transformed (get_or ms "cvssMetricV2" (VList []))
       = Ok (p_metrics p)) /\
    (exists wl, py_iter (get_or cve "weaknesses" (VList [])) = Ok wl /\
       weaknesses_loop wl [] = Ok (p_weaknesses p)) /\
    (exists rs, py_iter (get_or cve "references" (VList [])) = Ok rs /\
       url_set rs [] = Ok (p_urls p)) /\
    p_id p = get_or cve "id" VNone /\
    p_sourceIdentifier p = get_or cve "sourceIdentifier" VNone /\
    p_published p = get_or cve "published" VNone /\
    p_lastModified p = get_or cve "lastModified" VNone /\
    p_vulnStatus p = get_or cve "vulnStatus" VNone.
Proof.
  unfold project. intros H.
  apply bind_ok_inv in H. destruct H as (cve0 & Hcve & H).
  apply bind_ok_inv in H. destruct H as (descs & Hdescs & H).
  apply py_get_ok_inv in Hdescs. destruct Hdescs as (cve & -> & ->).
  rewrite !py_get_dict in H. cbn [bind] in H.
  apply bind_ok_inv in H. destruct H as (description & Hdesc & H).
  apply bind_ok_inv in H. destruct H as (md & Hmd & H).
  apply py_get_ok_inv in Hmd. destruct Hmd as (ms & Hms & ->).
  apply bind_ok_inv in H. destruct H as (mt & Hmt & H).
  apply bind_ok_inv in H. destruct H as (wl & Hwl & H).
  apply bind_ok_inv in H. destruct H as (wlist & Hwlist & H).
  apply bind_ok_inv in H. destruct H as (rs & Hrs & H).
  apply bind_ok_inv in H. destruct H as (s & Hs & H).
  inversion H; subst p; clear H. cbn.
  exists cve. repeat split; eauto.
Qed.

(** [NoDup] of a list of string literals. *)
Ltac nodup_literals :=
  repeat (constructor;
          [ let H := fresh in
            intros H; cbn [In] in H;
            repeat (destruct H as [H|H]; [discriminate H|]); exact H | ]);
  constructor.

Lemma base_keys_nodup : NoDup base_keys.
Proof.
  cbv [base_keys]. nodup_literals.
Qed.

Lemma scoring_keys_fresh :
  NoDup (["id"; "sourceIdentifier"; "published"; "lastModified";
          "vulnStatus"; "description"]
         ++ scoring_keys ++ ["weaknesses"; "references"; "collected_at"]).
Proof.
  cbv [scoring_keys app]. nodup_literals.
Qed.

Lemma items_of_keys (set_order : list value -> list value)
    (collected_at : string) (vuln_item : value) (p : parts) :
  project vuln_item = Ok p ->
  NoDup (dict_keys (items_of set_order collected_at p)).
Proof.
  intros H. apply project_ok_inv in H.
  destruct H as (cve & _ & _ & (ms & _ & Hmt) & _).
  apply metrics_transformed_keys in Hmt.
  unfold items_of, dict_keys. rewrite !map_app.
  destruct Hmt as [-> | Hk].
  - exact base_keys_nodup.
  - unfold dict_keys in Hk. rewrite Hk. exact scoring_keys_fresh.
Qed.

(** No key of the display is set twice, so the record is the list of its
    items: the scoring fields sit between [description] and [weaknesses],
    and override nothing. *)
Lemma transform_vuln_ok_inv (set_order : list value -> list value)
    (collected_at : string) (vuln_item : value) (rec : dict) :
  transform_vuln set_order collected_at vuln_item = Ok rec ->
  exists p, project vuln_item = Ok p /\
            rec = items_of set_order collected_at p.
Proof.
  rewrite transform_vuln_project. intros H.
  apply bind_ok_inv in H. destruct H as (p & Hp & H).
  exists p. split; [exact Hp|].
  rewrite dict_display_nodup in H by (eapply items_of_keys; exact Hp).
  congruence.
Qed.

Lemma transform_vuln_of_project (set_order : list value -> list value)
    (collected_at : string) (vuln_item : value) (p : parts) :
  project vuln_item = Ok p ->
  transform_vuln set_order collected_at vuln_item
  = Ok (items_of set_order collected_at p).
Proof.
  intros Hp. rewrite transform_vuln_project, Hp. cbn [bind].
  rewrite dict_display_nodup by (eapply items_of_keys; exact Hp).
  reflexivity.
Qed.

Lemma transform_vuln_raise (set_order : list value -> list value)
    (collected_at : string) (vuln_item : value) (e : exn) :
  project vuln_item = Raise e ->
  transform_vuln set_order collected_at vuln_item = Raise e.
Proof.
  intros Hp. now rewrite transform_vuln_project, Hp.
Qed.

End TransformFacts.

(** ** The record projection *)

Module TransformProps.
Import Py Log Mongo Transform Notions PyFacts TransformFacts Samples.

(** The [description] of a record is the scan of the [descriptions] of its
    source. *)
Lemma description_field (set_order : list value -> list value)
    (collected_at : string) (vuln_item : value) (cve rec : dict) :
  py_getitem_str vuln_item "cve" = Ok (VDict cve) ->
  transform_vuln set_order collected_at vuln_item = Ok rec ->
  exists v, dict_get rec "description" = Some v /\
            english_value (get_or cve "descriptions" (VList [])) = Ok v.
Proof.
  intros Hcve H. apply transform_vuln_ok_inv in H.
  destruct H as (p & Hp & ->). apply project_ok_inv in Hp.
  destruct Hp as (cve' & Hcve' & Hdesc & _).
  rewrite Hcve in Hcve'. inversion Hcve'; subst cve'.
  exists (p_description p). split; [reflexivity | exact Hdesc].
Qed.

(** C2. For every source record that is transformed, if its descriptions
    hold an entry tagged "en", the output [description] is the value of the
    first such entry, whatever comes before or after it; if none of its
    description entries is tagged "en" (or it has no descriptions), the
    output [description] is the empty string. *)
Theorem description_first_english (set_order : list value -> list value)
    (collected_at : string) (vuln_item : value) (cve rec : dict) :
  py_getitem_str vuln_item "cve" = Ok (VDict cve) ->
  transform_vuln set_order collected_at vuln_item = Ok rec ->
  (forall pre d post,
      dict_get cve "descriptions" = Some (VList (pre ++ d :: post)) ->
      Forall (fun x => english x = false) pre ->
      english d = true ->
      dict_get rec "description" = Some (entry_value d))
  /\
  (forall ds,
      get_or cve "descriptions" (VList []) = VList ds ->
      Forall (fun x => english x = false) ds ->
      dict_get rec "description" = Some (VStr "")).
Proof.
  intros Hcve H.
  destruct (description_field _ _ _ _ _ Hcve H) as (v & Hget & Hv).
  split.
  - intros pre d post Hd Hpre Hen.
    unfold get_or in Hv. rewrite Hd in Hv. cbn in Hv.
    now rewrite Hget, (next_en_first _ _ _ _ Hpre Hen Hv).
  - intros ds Hd Hds. rewrite Hd in Hv. cbn in Hv.
    now rewrite Hget, (next_en_none _ _ Hds Hv).
Qed.

Lemma description_first_english_witness :
  (exists rec,
      transform_vuln listing "t" (vuln cve_xss) = Ok rec /\
      dict_get rec "description" = Some (VStr "desc-en"))
  /\
  (exists rec,
      transform_vuln listing "t" (vuln cve_fr) = Ok rec /\
      dict_get rec "description" = Some (VStr "")).
Proof.
  split; eexists; (split; [reflexivity|]).
  - refine (proj1 (description_first_english listing "t" (vuln cve_xss)
                     cve_xss _ eq_refl eq_refl)
              [entry "fr" "..."] (entry "en" "desc-en") [] eq_refl _ eq_refl).
    repeat constructor.
  - refine (proj2 (description_first_english listing "t" (vuln cve_fr)
                     cve_fr _ eq_refl eq_refl)
              [entry "fr" "..."] eq_refl _).
    repeat constructor.
Defined.

(** C10. For every source record that is transformed and whose first entry
    tagged "en" has no [value] field, the output [description] is None: the
    scan stops at that entry and neither goes on to a later English entry nor
    falls back to the empty string. *)
Theorem description_none_when_value_absent
    (set_order : list value -> list value) (collected_at : string)
    (vuln_item : value) (cve rec : dict)
    (pre post : list value) (e : dict) :
  py_getitem_str vuln_item "cve" = Ok (VDict cve) ->
  transform_vuln set_order collected_at vuln_item = Ok rec ->
  dict_get cve "descriptions" = Some (VList (pre ++ VDict e :: post)) ->
  Forall (fun x => english x = false) pre ->
  english (VDict e) = true ->
  dict_get e "value" = None ->
  dict_get rec "description" = Some VNone.
Proof.
  intros Hcve H Hd Hpre Hen Hval.
  destruct (description_field _ _ _ _ _ Hcve H) as (v & Hget & Hv).
  unfold get_or in Hv. rewrite Hd in Hv. cbn in Hv.
  rewrite Hget, (next_en_first _ _ _ _ Hpre Hen Hv).
  cbn. unfold get_or. now rewrite Hval.
Qed.

Lemma description_none_when_value_absent_witness :
  exists rec,
    transform_vuln listing "t" (vuln cve_no_value) = Ok rec /\
    dict_get rec "description" = Some VNone.
Proof.
  eexists. split; [reflexivity|].
  refine (description_none_when_value_absent listing "t" (vuln cve_no_value)
            cve_no_value _ [entry "fr" "..."] [entry "en" "later"]
            [("lang", VStr "en")] eq_refl eq_refl eq_refl _ eq_refl eq_refl).
  repeat constructor.
Defined.

(** A scoring key is looked up among the scoring fields only. *)
Lemma scoring_lookup (set_order : list value -> list value)
    (collected_at : string) (p : parts) (k : string) :
  In k scoring_keys ->
  dict_get (items_of set_order collected_at p) k = dict_get (p_metrics p) k.
Proof.
  intros Hk. unfold items_of. simpl in Hk.
  repeat (destruct Hk as [<-|Hk];
          [ cbn; rewrite dict_get_app;
            destruct (dict_get (p_metrics p) _); reflexivity | ]).
  contradiction.
Qed.

Lemma metrics_field (set_order : list value -> list value)
    (collected_at : string) (vuln_item : value) (cve rec : dict) :
  py_getitem_str vuln_item "cve" = Ok (VDict cve) ->
  transform_vuln set_order collected_at vuln_item = Ok rec ->
  exists p ms,
    rec = items_of set_order collected_at p /\
    get_or cve "metrics" (VDict []) = VDict ms /\
    metrics_transformed (get_or ms "cvssMetricV2" (VList []))
    = Ok (p_metrics p).
Proof.
  intros Hcve H. apply transform_vuln_ok_inv in H.
  destruct H as (p & Hp & ->). apply project_ok_inv in Hp.
  destruct Hp as (cve' & Hcve' & _ & (ms & Hms & Hmt) & _).
  rewrite Hcve in Hcve'. inversion Hcve'; subst cve'.
  exists p, ms. now repeat split.
Qed.

(** C3. For every source record that is transformed: if its cvssMetricV2
    list is non-empty, each of the flattened scoring fields of the output
    record is the one derived from element 0 of that list, whatever the later
    elements are; if the list is empty or absent, none of the scoring keys is
    a key of the output record. *)
Theorem scoring_fields_from_first_metric
    (set_order : list value -> list value) (collected_at : string)
    (vuln_item : value) (cve rec : dict) :
  py_getitem_str vuln_item "cve" = Ok (VDict cve) ->
  transform_vuln set_order collected_at vuln_item = Ok rec ->
  (forall ms m later,
      dict_get cve "metrics" = Some (VDict ms) ->
      dict_get ms "cvssMetricV2" = Some (VList (m :: later)) ->
      forall k, In k scoring_keys ->
        exists v, scoring_field m k = Ok v /\ dict_get rec k = Some v)
  /\
  ((dict_get cve "metrics" = None \/
    exists ms, dict_get cve "metrics" = Some (VDict ms) /\
               (dict_get ms "cvssMetricV2" = None \/
                dict_get ms "cvssMetricV2" = Some (VList []))) ->
   forall k, In k scoring_keys -> dict_contains rec k = false).
Proof.
  intros Hcve H.
  destruct (metrics_field _ _ _ _ _ Hcve H) as (p & ms & -> & Hms & Hmt).
  split.
  - intros ms' m later Hm Hl k Hk.
    unfold get_or in Hms. rewrite Hm in Hms. inversion Hms; subst ms'.
    unfold get_or in Hmt. rewrite Hl in Hmt.
    destruct (metrics_transformed_head _ _ _ Hmt) as [_ Hall].
    destruct (Hall k Hk) as (v & Hv & Hget).
    exists v. split; [exact Hv|]. now rewrite scoring_lookup.
  - intros Habs k Hk. unfold dict_contains.
    rewrite scoring_lookup by exact Hk.
    assert (Hempty : p_metrics p = []).
    { unfold get_or in Hms, Hmt.
      destruct Habs as [Hnone | (ms' & Hm & Hl)].
      - rewrite Hnone in Hms. inversion Hms; subst ms. cbn in Hmt. congruence.
      - rewrite Hm in Hms. inversion Hms; subst ms'.
        destruct Hl as [Hl|Hl]; rewrite Hl in Hmt; cbn in Hmt; congruence. }
    now rewrite Hempty.
Qed.

Lemma scoring_fields_from_first_metric_witness :
  (exists rec,
      transform_vuln listing "t" (vuln cve_scored) = Ok rec /\
      dict_get rec "type" = Some (VStr "Primary") /\
      dict_get rec "baseScore" = Some (VFloat (75 # 10)) /\
      dict_get rec "baseSeverity" = Some (VStr "HIGH") /\
      dict_get rec "impactScore" = Some VNone)
  /\
  (exists rec,
      transform_vuln listing "t" (vuln cve_xss) = Ok rec /\
      dict_contains rec "type" = false /\
      dict_contains rec "baseScore" = false).
Proof.
  split; eexists; (split; [reflexivity|]).
  - pose proof (proj1 (scoring_fields_from_first_metric listing "t"
                         (vuln cve_scored) cve_scored _ eq_refl eq_refl)
                  _ _ _ eq_refl eq_refl) as Hall.
    split; [|split; [|split]].
    + destruct (Hall "type") as (v & Hv & Hget);
        [cbn; tauto | inversion Hv; subst v; exact Hget].
    + destruct (Hall "baseScore") as (v & Hv & Hget);
        [cbn; tauto | inversion Hv; subst v; exact Hget].
    + destruct (Hall "baseSeverity") as (v & Hv & Hget);
        [cbn; tauto | inversion Hv; subst v; exact Hget].
    + destruct (Hall "impactScore") as (v & Hv & Hget);
        [cbn; tauto | inversion Hv; subst v; exact Hget].
  - pose proof (proj2 (scoring_fields_from_first_metric listing "t"
                         (vuln cve_xss) cve_xss _ eq_refl eq_refl)
                  (or_introl eq_refl)) as Hnone.
    split; apply Hnone; cbn; tauto.
Defined.

(** The [references] of a record list the set built from the reference
    entries of its source. *)
Lemma references_field (set_order : list value -> list value)
    (collected_at : string) (vuln_item : value) (cve rec : dict) :
  py_getitem_str vuln_item "cve" = Ok (VDict cve) ->
  transform_vuln set_order collected_at vuln_item = Ok rec ->
  exists rs s,
    py_iter (get_or cve "references" (VList [])) = Ok rs /\
    url_set rs [] = Ok s /\
    dict_get rec "references" = Some (VList (set_order s)).
Proof.
  intros Hcve H. apply transform_vuln_ok_inv in H.
  destruct H as (p & Hp & ->). apply project_ok_inv in Hp.
  destruct Hp as (cve' & Hcve' & _ & (ms & _ & Hmt) & _ & (rs & Hrs & Hs) & _).
  rewrite Hcve in Hcve'. inversion Hcve'; subst cve'.
  exists rs, (p_urls p). split; [exact Hrs | split; [exact Hs|]].
  unfold items_of. cbn. rewrite dict_get_app.
  rewrite dict_get_not_key; [reflexivity|].
  destruct (metrics_transformed_keys _ _ Hmt) as [-> | ->].
  - intros [].
  - cbn. intros H. repeat (destruct H as [H|H]; [discriminate H|]). exact H.
Qed.

(** Entries without a [url] key can be dropped from the input: the set built
    is the same. *)
Lemma url_set_without_lacking (rs : list value) (s : pyset) :
  url_set (filter (fun r => negb (lacks_url r)) rs) s = url_set rs s.
Proof.
  revert s. induction rs as [|r rs IH]; intros s; [reflexivity|].
  cbn [filter]. destruct (lacks_url r) eqn:Hl; cbn [negb].
  - destruct r; try discriminate. rewrite url_set_falsy; [apply IH|].
    unfold lacks_url, dict_contains in Hl. unfold get_or.
    destruct (dict_get d "url"); [discriminate | reflexivity].
  - cbn [url_set].
    destruct (py_get r "url" VNone) as [c|]; cbn [bind]; [|reflexivity].
    destruct (truthy c); [|apply IH].
    destruct (set_add s c); cbn [bind]; [apply IH | reflexivity].
Qed.

(** C4. For every source record that is transformed, whatever order the set
    is listed in: the output [references] holds no URL twice (nor two URLs
    that compare equal); each of its members is the [url] of a reference
    entry that has one; each entry with a non-empty [url] is represented;
    and the entries without a [url] contribute nothing, the output being the
    same with them dropped from the input. *)
Theorem references_distinct_urls (set_order : list value -> list value)
    (collected_at : string) (vuln_item : value) (cve rec : dict) :
  (forall s, Permutation (set_order s) s) ->
  py_getitem_str vuln_item "cve" = Ok (VDict cve) ->
  transform_vuln set_order collected_at vuln_item = Ok rec ->
  exists rs us,
    py_iter (get_or cve "references" (VList [])) = Ok rs /\
    dict_get rec "references" = Some (VList us) /\
    NoDup us /\
    py_distinct us /\
    (forall u, In u us ->
       exists e, In (VDict e) rs /\ dict_get e "url" = Some u) /\
    (forall e u, In (VDict e) rs -> dict_get e "url" = Some u ->
       truthy u = true -> exists u', In u' us /\ py_eq u' u = true) /\
    references_of set_order
      (VList (filter (fun r => negb (lacks_url r)) rs)) = Ok (VList us).
Proof.
  intros Hperm Hcve H.
  destruct (references_field _ _ _ _ _ Hcve H) as (rs & s & Hrs & Hs & Hget).
  exists rs, (set_order s). split; [exact Hrs | split; [exact Hget|]].
  destruct (url_set_distinct _ _ _ py_distinct_nil (Forall_nil _) Hs)
    as [Hd _].
  pose proof (py_distinct_perm _ _ (Hperm s) Hd) as Hd'.
  split; [exact (proj1 Hd') | split; [exact Hd' | split; [|split]]].
  - intros u Hu. apply (Permutation_in _ (Hperm s)) in Hu.
    destruct (url_set_sound _ _ _ Hs u Hu) as [[]|(e & He & Hurl & _)].
    exists e. now split.
  - intros e u He Hurl Htr.
    destruct (proj2 (url_set_complete _ _ _ Hs) e u He Hurl Htr)
      as (u' & Hu' & Heq).
    exists u'. split; [|exact Heq].
    apply (Permutation_in _ (Permutation_sym (Hperm s))). exact Hu'.
  - unfold references_of. cbn [py_iter bind].
    now rewrite url_set_without_lacking, Hs.
Qed.

Lemma references_distinct_urls_witness :
  exists rec,
    transform_vuln reversed "t" (vuln cve_empty_url) = Ok rec /\
    exists us,
      dict_get rec "references" = Some (VList us) /\
      NoDup us /\
      Permutation us [VStr "http://a"; VStr "http://b"].
Proof.
  eexists. split; [reflexivity|].
  destruct (references_distinct_urls reversed "t" (vuln cve_empty_url)
              cve_empty_url _
              (fun s => Permutation_sym (Permutation_rev s))
              eq_refl eq_refl)
    as (rs & us & _ & Hget & Hnd & _).
  exists us. split; [exact Hget | split; [exact Hnd|]].
  cbn in Hget. inversion Hget; subst us. apply perm_swap.
Defined.

(** C8. For every source record, a reference entry whose [url] is present
    but falsy (the empty string, None, 0, ...) is treated exactly as an entry
    without a [url]: replacing it by such an entry changes nothing in the
    result of the transformation; and no member of the output [references]
    is falsy, the empty string in particular. *)
Theorem falsy_url_excluded (set_order : list value -> list value)
    (collected_at : string) (item1 item2 : value) (cve1 cve2 : dict)
    (pre post : list value) (e e' : dict) :
  (forall s, Permutation (set_order s) s) ->
  py_getitem_str item1 "cve" = Ok (VDict cve1) ->
  py_getitem_str item2 "cve" = Ok (VDict cve2) ->
  (forall k, k <> "references" -> dict_get cve1 k = dict_get cve2 k) ->
  dict_get cve1 "references" = Some (VList (pre ++ VDict e :: post)) ->
  dict_get cve2 "references" = Some (VList (pre ++ VDict e' :: post)) ->
  truthy (get_or e "url" VNone) = false ->
  dict_get e' "url" = None ->
  transform_vuln set_order collected_at item1
  = transform_vuln set_order collected_at item2
  /\
  (forall rec us,
      transform_vuln set_order collected_at item1 = Ok rec ->
      dict_get rec "references" = Some (VList us) ->
      Forall (fun u => truthy u = true) us /\ ~ In (VStr "") us).
Proof.
  intros Hperm H1 H2 Hsame Hr1 Hr2 Hfalsy Hnone.
  split.
  - rewrite !transform_vuln_project. f_equal.
    assert (Hg : forall k d, k <> "references" ->
                             get_or cve1 k d = get_or cve2 k d).
    { intros k d Hk. unfold get_or. now rewrite (Hsame k Hk). }
    assert (Hurl : forall s, url_set (pre ++ VDict e :: post) s
                             = url_set (pre ++ VDict e' :: post) s).
    { intros s. rewrite !url_set_app.
      destruct (url_set pre s); cbn [bind]; [|reflexivity].
      rewrite !url_set_falsy; [reflexivity | | exact Hfalsy].
      unfold get_or. now rewrite Hnone. }
    unfold project. rewrite H1, H2. cbn [bind]. rewrite !py_get_dict.
    cbn [bind].
    rewrite (Hg "descriptions"), (Hg "metrics"), (Hg "weaknesses"),
      (Hg "id"), (Hg "sourceIdentifier"), (Hg "published"),
      (Hg "lastModified"), (Hg "vulnStatus") by discriminate.
    replace (get_or cve1 "references" (VList []))
      with (VList (pre ++ VDict e :: post))
      by (unfold get_or; now rewrite Hr1).
    replace (get_or cve2 "references" (VList []))
      with (VList (pre ++ VDict e' :: post))
      by (unfold get_or; now rewrite Hr2).
    cbn [py_iter bind]. rewrite Hurl. reflexivity.
  - intros rec us Hrec Hget.
    destruct (references_field _ _ _ _ _ H1 Hrec) as (rs & s & _ & Hs & Hget').
    rewrite Hget in Hget'. inversion Hget'; subst us.
    assert (Hall : Forall (fun u => truthy u = true) (set_order s)).
    { apply Forall_forall. intros u Hu.
      apply (Permutation_in _ (Hperm s)) in Hu.
      destruct (url_set_sound _ _ _ Hs u Hu) as [[]|(e0 & _ & _ & Htr)].
      exact Htr. }
    split; [exact Hall|].
    intros Hin. rewrite Forall_forall in Hall.
    specialize (Hall _ Hin). discriminate.
Qed.

Lemma falsy_url_excluded_witness :
  transform_vuln listing "t" (vuln cve_empty_url)
  = transform_vuln listing "t" (vuln cve_without_url)
  /\
  exists rec,
    transform_vuln listing "t" (vuln cve_empty_url) = Ok rec /\
    dict_get rec "references"
    = Some (VList [VStr "http://a"; VStr "http://b"]).
Proof.
  split.
  - refine (proj1 (falsy_url_excluded listing "t" (vuln cve_empty_url)
                     (vuln cve_without_url) cve_empty_url cve_without_url
                     [VDict [("url", VStr "http://a")]]
                     [VDict [("url", VStr "http://b")]]
                     [("url", VStr ""); ("source", VStr "x")]
                     [("source", VStr "x")]
                     (fun s => Permutation_refl s)
                     eq_refl eq_refl _ eq_refl eq_refl eq_refl eq_refl)).
    intros k Hk. unfold cve_empty_url, cve_without_url. cbn [dict_get].
    destruct (String.eqb_spec "id" k); [reflexivity|].
    destruct (String.eqb_spec "references" k); [congruence | reflexivity].
  - eexists. split; reflexivity.
Defined.

End TransformProps.

(** ** The batch *)

Module BatchProps.
Import Py Log Mongo Transform Notions PyFacts TransformFacts Samples.

(** The loop appends the records of the entries that project and logs two
    warnings for each of the others, in order. *)
Lemma transform_loop_spec (set_order : list value -> list value)
    (utcnow : nat -> string) (items : list value) :
  forall (i : nat) (acc : list dict) (lg : log),
    transform_loop set_order utcnow i items acc lg
    = (acc ++ records_of set_order utcnow i items,
       lg ++ warnings_for (errors_of items)).
Proof.
  induction items as [|x items IH]; intros i acc lg; cbn [transform_loop].
  - cbn. now rewrite !app_nil_r.
  - rewrite transform_vuln_project. cbn [records_of errors_of].
    unfold projection_error. destruct (project x) as [p|e]; cbn [bind].
    + rewrite IH, <- app_assoc. reflexivity.
    + rewrite IH, <- app_assoc. reflexivity.
Qed.

Lemma errors_of_length (items : list value) :
  List.length (errors_of items) = List.length (filter malformed items).
Proof.
  induction items as [|x items IH]; [reflexivity|].
  cbn [errors_of filter]. unfold malformed.
  destruct (projection_error x); cbn [List.length]; now rewrite IH.
Qed.

Lemma records_of_length (set_order : list value -> list value)
    (utcnow : nat -> string) (items : list value) (i : nat) :
  List.length (records_of set_order utcnow i items)
  + List.length (filter malformed items)
  = List.length items.
Proof.
  revert i. induction items as [|x items IH]; intros i; [reflexivity|].
  specialize (IH (S i)).
  cbn [records_of filter]. unfold malformed at 1, projection_error.
  destruct (project x); cbn [List.length]; lia.
Qed.

Lemma warnings_for_count (es : list exn) :
  warnings (warnings_for es) = 2 * List.length es.
Proof.
  unfold warnings. induction es as [|e es IH]; [reflexivity|].
  cbn [warnings_for flat_map app filter is_warning lvl warning List.length]
    in *.
  fold (warnings_for es). rewrite IH. lia.
Qed.

Lemma items_of_complete (set_order : list value -> list value)
    (collected_at : string) (p : parts) :
  complete (items_of set_order collected_at p).
Proof.
  intros k Hk. unfold dict_contains, items_of. cbn in Hk.
  repeat (destruct Hk as [<-|Hk];
          [ cbn; try rewrite dict_get_app;
            try destruct (dict_get (p_metrics p) _); reflexivity | ]).
  contradiction.
Qed.

Lemma records_of_complete (set_order : list value -> list value)
    (utcnow : nat -> string) (items : list value) (i : nat) :
  Forall complete (records_of set_order utcnow i items).
Proof.
  revert i. induction items as [|x items IH]; intros i; cbn [records_of].
  - constructor.
  - destruct (project x) as [p|e] eqn:Hp; [|apply IH].
    constructor; [|apply IH].
    rewrite dict_display_nodup by (eapply items_of_keys; exact Hp).
    apply items_of_complete.
Qed.

(** An entry is malformed exactly when its [try] body raises, whatever the
    clock and the listing order. *)
Lemma malformed_spec (set_order : list value -> list value)
    (collected_at : string) (x : value) :
  is_ok (transform_vuln set_order collected_at x) = negb (malformed x).
Proof.
  rewrite transform_vuln_project. unfold malformed, projection_error.
  destruct (project x); reflexivity.
Qed.

(** C1, with the count of warnings as the code has it. For every payload
    whose [vulnerabilities] sequence has N entries of which M raise in the
    projection, the loop produces exactly N - M records: a failing entry
    gives no record (the records are the complete records of the other
    entries, in order), it leaves two WARNING records in the log, the
    message naming the exception and then the traceback, and the loop goes
    on with the remaining entries. *)
Theorem transform_loop_skips_failures (set_order : list value -> list value)
    (utcnow : nat -> string) (items : list value) :
  let N := List.length items in
  let M := List.length (filter malformed items) in
  exists vulnerabilities lg,
    transform_loop set_order utcnow 0 items [] [] = (vulnerabilities, lg) /\
    (forall x t, is_ok (transform_vuln set_order t x) = negb (malformed x)) /\
    M <= N /\
    List.length vulnerabilities = N - M /\
    vulnerabilities = records_of set_order utcnow 0 items /\
    Forall complete vulnerabilities /\
    lg = warnings_for (errors_of items) /\
    List.length (errors_of items) = M /\
    warnings lg = 2 * M.
Proof.
  intros N M. subst N M.
  exists (records_of set_order utcnow 0 items),
         (warnings_for (errors_of items)).
  pose proof (records_of_length set_order utcnow items 0) as Hlen.
  repeat split.
  - now rewrite transform_loop_spec.
  - intros x t. apply malformed_spec.
  - lia.
  - lia.
  - apply records_of_complete.
  - apply errors_of_length.
  - rewrite warnings_for_count, errors_of_length. reflexivity.
Qed.

(** C1 as stated fails on the count of warnings: a payload with one
    malformed entry out of three gives two records and two WARNING records,
    not one. *)
Lemma one_failure_two_warnings :
  let items := [vuln cve_xss; VDict []; vuln cve_scored] in
  let out := transform_loop listing noon 0 items [] [] in
  List.length (filter malformed items) = 1 /\
  List.length (fst out) = 2 /\
  warnings (snd out) = 2 /\
  warnings (snd out) <> List.length (filter malformed items).
Proof.
  vm_compute. repeat split. discriminate.
Qed.

End BatchProps.

(** ** Runs of the transformer *)

Module RunProps.
Import Py Log Mongo Transform Notions PyFacts TransformFacts BatchProps Samples.

Lemma same_field_refl (f : string * value) : same_field f f.
Proof.
  split; [reflexivity | right; left; reflexivity].
Qed.

Lemma same_record_refl (r : dict) : same_record r r.
Proof.
  induction r; constructor; [apply same_field_refl | assumption].
Qed.

Lemma same_records_refl (l : list dict) : Forall2 same_record l l.
Proof.
  induction l; constructor; [apply same_record_refl | assumption].
Qed.

(** The records built from the same parts in two runs agree. *)
Lemma items_of_same (o1 o2 : list value -> list value) (t1 t2 : string)
    (p : parts) :
  (forall s, Permutation (o1 s) s) ->
  (forall s, Permutation (o2 s) s) ->
  same_record (items_of o1 t1 p) (items_of o2 t2 p).
Proof.
  intros H1 H2. unfold items_of, same_record.
  apply Forall2_app; [|apply Forall2_app].
  - repeat (constructor; [apply same_field_refl|]). constructor.
  - apply same_record_refl.
  - constructor; [apply same_field_refl|].
    constructor; [|constructor; [|constructor]].
    + split; [reflexivity|]. right; right. split; [reflexivity|].
      exists (o1 (p_urls p)), (o2 (p_urls p)).
      split; [reflexivity | split; [reflexivity|]].
      rewrite H1. symmetry. apply H2.
    + split; [reflexivity | left; reflexivity].
Qed.

Lemma records_of_same (o1 o2 : list value -> list value)
    (u1 u2 : nat -> string) (items : list value) :
  (forall s, Permutation (o1 s) s) ->
  (forall s, Permutation (o2 s) s) ->
  forall i1 i2,
    Forall2 same_record (records_of o1 u1 i1 items) (records_of o2 u2 i2 items).
Proof.
  intros H1 H2. induction items as [|x items IH]; intros i1 i2;
    cbn [records_of].
  - constructor.
  - destruct (project x) as [p|e] eqn:Hp; [|apply IH].
    constructor; [|apply IH].
    rewrite !dict_display_nodup by (eapply items_of_keys; exact Hp).
    now apply items_of_same.
Qed.

(** Without its configuration the script stops before touching the
    database. *)
Lemma transformer_env_unset (set_order : list value -> list value)
    (utcnow : nat -> string) (env : environ) (srv : server) (st : db) :
  unset (MONGO_URI env) || unset (MONGO_DB_NAME env) = true ->
  final (transformer set_order utcnow env srv st) = st /\
  ended (transformer set_order utcnow env srv st)
  = Aborted (ValueError "MONGO_URL or MONGO_DB not set in .env").
Proof.
  intros H. unfold transformer, load_env. rewrite H. now split.
Qed.

(** [load_raw_data] only reads the raw collection. *)
Lemma load_raw_data_raw (srv : server) (st st' : db) :
  nvd_raw st = nvd_raw st' -> load_raw_data srv st = load_raw_data srv st'.
Proof.
  intros H. unfold load_raw_data. now rewrite H.
Qed.

(** With a database name the driver refuses the script stops at the
    connection, the database untouched. *)
Lemma transformer_bad_name (set_order : list value -> list value)
    (utcnow : nat -> string) (env : environ) (st : db) :
  unset (MONGO_URI env) || unset (MONGO_DB_NAME env) = false ->
  valid_db_name (db_name env) = false ->
  final (transformer set_order utcnow env healthy st) = st /\
  ended (transformer set_order utcnow env healthy st) = Aborted InvalidName.
Proof.
  intros Henv Hname. unfold transformer, load_env, connect. rewrite Henv.
  cbn [healthy mk_server uri_ok reachable probe_ok negb]. rewrite Hname.
  now split.
Qed.

Lemma connect_ok (env : environ) (srv : server) :
  uri_ok srv = true -> reachable srv = true -> probe_ok srv = true ->
  valid_db_name (db_name env) = true ->
  connect env srv = ([info (Connected (db_name env))], Ok tt).
Proof.
  intros Hu Hr Hp Hn. unfold connect. now rewrite Hu, Hr, Hp, Hn.
Qed.

(** A run against a server that answers: the raw collection is left as it
    was and the normalized collection holds the records of the batch, or
    nothing when the raw data cannot be loaded. *)
Lemma transformer_healthy (set_order : list value -> list value)
    (utcnow : nat -> string) (env : environ) (st : db) :
  unset (MONGO_URI env) || unset (MONGO_DB_NAME env) = false ->
  valid_db_name (db_name env) = true ->
  let r := transformer set_order utcnow env healthy st in
  nvd_raw (final r) = nvd_raw st /\
  match batch st with
  | Ok items =>
      nvd_vulnerabilities (final r) = records_of set_order utcnow 0 items /\
      ended r = Completed
  | Raise e =>
      nvd_vulnerabilities (final r) = [] /\ ended r = Aborted e
  end.
Proof.
  intros Henv Hname. unfold transformer, load_env, batch.
  rewrite Henv, (connect_ok env healthy eq_refl eq_refl eq_refl Hname).
  unfold clear_old_data. change (delete_ok healthy) with true. cbv iota.
  destruct (load_raw_data healthy
              {| nvd_raw := nvd_raw st; nvd_vulnerabilities := [] |})
    as [l4 [raw_data|e]]; [|now split].
  unfold transform_data.
  destruct (vs <- py_get (VDict raw_data) "vulnerabilities" (VList []) ;;
            py_iter vs) as [items|e]; [|now split].
  rewrite transform_loop_spec. cbn [app].
  unfold store_transformed.
  destruct (records_of set_order utcnow 0 items); cbn; now split.
Qed.

Lemma batch_raw (st st' : db) : nvd_raw st = nvd_raw st' -> batch st = batch st'.
Proof.
  intros H. unfold batch. now rewrite H.
Qed.

(** C7. Two runs of the transformer in sequence on an unchanged raw store,
    against a server that answers: both end the same way, the raw store is
    untouched, and the normalized store holds the same records after the
    second run as after the first, field by field, except for the value of
    [collected_at]; [references], a set, is compared up to the order of its
    listing. *)
Theorem transformer_twice_same_records
    (o1 o2 : list value -> list value) (u1 u2 : nat -> string)
    (env : environ) (st : db) :
  (forall s, Permutation (o1 s) s) ->
  (forall s, Permutation (o2 s) s) ->
  let r1 := transformer o1 u1 env healthy st in
  let r2 := transformer o2 u2 env healthy (final r1) in
  nvd_raw (final r1) = nvd_raw st /\
  nvd_raw (final r2) = nvd_raw st /\
  ended r2 = ended r1 /\
  Forall2 same_record
    (nvd_vulnerabilities (final r1)) (nvd_vulnerabilities (final r2)).
Proof.
  intros H1 H2 r1 r2. subst r1 r2.
  destruct (unset (MONGO_URI env) || unset (MONGO_DB_NAME env)) eqn:Henv.
  - destruct (transformer_env_unset o1 u1 env healthy st Henv) as [Hf1 He1].
    rewrite Hf1.
    destruct (transformer_env_unset o2 u2 env healthy st Henv) as [Hf2 He2].
    rewrite Hf2, He1, He2. repeat split. apply same_records_refl.
  - destruct (valid_db_name (db_name env)) eqn:Hname.
    2:{ destruct (transformer_bad_name o1 u1 env st Henv Hname) as [Hf1 He1].
        rewrite Hf1.
        destruct (transformer_bad_name o2 u2 env st Henv Hname) as [Hf2 He2].
        rewrite Hf2, He1, He2. repeat split. apply same_records_refl. }
    destruct (transformer_healthy o1 u1 env st Henv Hname) as [Hr1 Hb1].
    destruct (transformer_healthy o2 u2 env
                (final (transformer o1 u1 env healthy st)) Henv Hname)
      as [Hr2 Hb2].
    rewrite (batch_raw _ _ Hr1) in Hb2. rewrite Hr1 in Hr2.
    split; [exact Hr1 | split; [exact Hr2|]].
    destruct (batch st) as [items|e].
    + destruct Hb1 as [-> ->], Hb2 as [-> ->].
      split; [reflexivity | now apply records_of_same].
    + destruct Hb1 as [-> ->], Hb2 as [-> ->].
      split; [reflexivity | constructor].
Qed.

Lemma transformer_twice_same_records_witness :
  let r1 := transformer listing noon env_ok healthy (mk_db [payload] [stale]) in
  let r2 := transformer reversed midnight env_ok healthy (final r1) in
  List.length (nvd_vulnerabilities (final r1)) = 2 /\
  ended r1 = Completed /\
  Forall2 same_record
    (nvd_vulnerabilities (final r1)) (nvd_vulnerabilities (final r2)) /\
  nvd_vulnerabilities (final r1) <> nvd_vulnerabilities (final r2).
Proof.
  split; [reflexivity | split; [reflexivity | split]].
  - exact (proj2 (proj2 (proj2
             (transformer_twice_same_records listing reversed noon midnight
                env_ok (mk_db [payload] [stale])
                (fun s => Permutation_refl s)
                (fun s => Permutation_sym (Permutation_rev s)))))).
  - vm_compute. discriminate.
Defined.

(** C6. When the raw store yields no document, or the document it yields
    has no [vulnerabilities] field, the run aborts with an error and writes
    no normalized document: the normalized store is left empty (cleared) or
    as it was (not cleared), and the raw store as it was. When the
    configuration is set and accepted by the driver and the server answers,
    the error is the ValueError raised by the loading step, logged with its
    traceback. *)
Theorem no_raw_data_aborts (set_order : list value -> list value)
    (utcnow : nat -> string) (env : environ) (srv : server) (st : db) :
  (find_one (nvd_raw st) = None \/
   exists raw_data, find_one (nvd_raw st) = Some raw_data /\
                    dict_contains raw_data "vulnerabilities" = false) ->
  let r := transformer set_order utcnow env srv st in
  (exists e, ended r = Aborted e) /\
  nvd_raw (final r) = nvd_raw st /\
  (nvd_vulnerabilities (final r) = [] \/
   nvd_vulnerabilities (final r) = nvd_vulnerabilities st) /\
  (unset (MONGO_URI env) || unset (MONGO_DB_NAME env) = false ->
   uri_ok srv = true -> reachable srv = true -> probe_ok srv = true ->
   valid_db_name (db_name env) = true -> find_ok srv = true ->
   ended r = Aborted (ValueError "No vulnerabilities found in raw data.") /\
   In (error (RawLoadFailed
                (ValueError "No vulnerabilities found in raw data.")))
      (logged r) /\
   In (error (Traceback
                (ValueError "No vulnerabilities found in raw data.")))
      (logged r)).
Proof.
  intros Hraw r. subst r. unfold transformer, load_env.
  destruct (unset (MONGO_URI env) || unset (MONGO_DB_NAME env)).
  { cbn. repeat split; try (now right); try discriminate. now eexists. }
  assert (Hload : forall st1, nvd_raw st1 = nvd_raw st ->
            exists e,
              load_raw_data srv st1
              = ([error (RawLoadFailed e); error (Traceback e)], Raise e) /\
              (find_ok srv = true ->
               e = ValueError "No vulnerabilities found in raw data.")).
  { intros st1 Hst1. unfold load_raw_data. rewrite Hst1.
    destruct (find_ok srv); cbn [bind].
    - exists (ValueError "No vulnerabilities found in raw data.").
      split; [|reflexivity].
      destruct Hraw as [-> | (raw_data & -> & Hno)]; [reflexivity|].
      rewrite Hno. cbn [negb]. rewrite orb_true_r. reflexivity.
    - exists PyMongoError. split; [reflexivity | discriminate]. }
  destruct (connect env srv) as [l2 [[]|e2]] eqn:Hc.
  2:{ cbn [final ended].
      split; [now eexists | split; [reflexivity | split; [now right|]]].
      intros _ Hu Hr Hp Hn _.
      rewrite (connect_ok env srv Hu Hr Hp Hn) in Hc. discriminate. }
  assert (Hl2 : uri_ok srv = true -> reachable srv = true ->
                probe_ok srv = true -> valid_db_name (db_name env) = true ->
                l2 = [info (Connected (db_name env))]).
  { intros Hu Hr Hp Hn. rewrite (connect_ok env srv Hu Hr Hp Hn) in Hc.
    congruence. }
  unfold clear_old_data. destruct (delete_ok srv).
  - destruct (Hload (mk_db (nvd_raw st) []) eq_refl) as (e & -> & He).
    cbn [final ended logged nvd_raw nvd_vulnerabilities].
    split; [now eexists | split; [reflexivity | split; [now left|]]].
    intros _ Hu Hr Hp Hn Hf. rewrite (He Hf), (Hl2 Hu Hr Hp Hn).
    split; [reflexivity|]. cbn. split.
    + right; right; right. now left.
    + right; right; right; right. now left.
  - destruct (Hload st eq_refl) as (e & -> & He).
    cbn [final ended logged nvd_raw nvd_vulnerabilities].
    split; [now eexists | split; [reflexivity | split; [now right|]]].
    intros _ Hu Hr Hp Hn Hf. rewrite (He Hf), (Hl2 Hu Hr Hp Hn).
    split; [reflexivity|]. cbn. split.
    + right; right; right; right. now left.
    + right; right; right; right; right. now left.
Qed.

Lemma no_raw_data_aborts_witness :
  (let r := transformer listing noon env_ok healthy (mk_db [] [stale]) in
   ended r = Aborted (ValueError "No vulnerabilities found in raw data.") /\
   final r = mk_db [] [])
  /\
  (let r := transformer listing noon env_ok
              (mk_server true false true true)
              (mk_db [payload_no_field] [stale]) in
   ended r = Aborted (ValueError "No vulnerabilities found in raw data.") /\
   final r = mk_db [payload_no_field] [stale]).
Proof.
  split; (split; [|reflexivity]).
  - exact (proj1 (proj2 (proj2 (proj2
             (no_raw_data_aborts listing noon env_ok healthy
                (mk_db [] [stale]) (or_introl eq_refl))))
             eq_refl eq_refl eq_refl eq_refl eq_refl eq_refl)).
  - exact (proj1 (proj2 (proj2 (proj2
             (no_raw_data_aborts listing noon env_ok
                (mk_server true false true true)
                (mk_db [payload_no_field] [stale])
                (or_intror (ex_intro _ payload_no_field
                              (conj eq_refl eq_refl))))))
             eq_refl eq_refl eq_refl eq_refl eq_refl eq_refl)).
Defined.

End RunProps.

(** ** The fetcher *)

Module ExtractProps.
Import Py Log Mongo Extract Notions Samples.

(** A payload that is neither a dict nor a list reaches the type test only
    after the collection has been cleared. *)
Lemma save_to_mongo_unsupported (env : environ) (data : value) (st : db) :
  unset (MONGO_URI env) || unset (MONGO_DB_NAME env) = false ->
  valid_db_name (db_name env) = true ->
  type_of data <> TDict -> type_of data <> TList ->
  save_to_mongo env healthy data st
  = ([info Connecting; info Clearing; error FormatNotSupported],
     mk_db [] (nvd_vulnerabilities st), Ok tt).
Proof.
  intros Henv Hname Hd Hl. unfold save_to_mongo. rewrite Henv, Hname.
  cbn [healthy mk_server uri_ok reachable probe_ok delete_ok negb].
  destruct data; cbn in Hd, Hl; try reflexivity; congruence.
Qed.

(** C5 does not hold of the code. A JSON string is neither a dict nor a
    list: [save_to_mongo] reports the error and inserts nothing, but it has
    already deleted the previous contents of the raw store, here the one
    payload it held. The same happens through [main], a non-empty string
    being truthy. *)
Theorem save_to_mongo_unsupported_clears_store :
  save_to_mongo env_ok healthy (VStr "maintenance") (mk_db [payload] [stale])
  = ([info Connecting; info Clearing; error FormatNotSupported],
     mk_db [] [stale], Ok tt)
  /\
  main env_ok healthy (Reply 200 (Some (VStr "maintenance")))
    (mk_db [payload] [stale])
  = ([info Fetching; info (Fetched 200);
      info Connecting; info Clearing; error FormatNotSupported],
     mk_db [] [stale], Ok tt).
Proof.
  split; reflexivity.
Qed.

(** C9. If the fetch succeeds with a falsy payload (an empty object, an
    empty list, null, ...), [main] does not call [save_to_mongo]: the
    database is left as it was, nothing deleted and nothing inserted, and the
    run ends with the same error record as on a failed fetch. *)
Theorem falsy_payload_skips_save (env : environ) (srv : server)
    (status_code : nat) (data : value) (st : db) :
  is_error_status status_code = false ->
  truthy data = false ->
  main env srv (Reply status_code (Some data)) st
  = ([info Fetching; info (Fetched status_code); error NoDataFetched],
     st, Ok tt)
  /\
  main env srv NoReply st
  = ([info Fetching; error FetchFailed; error NoDataFetched], st, Ok tt).
Proof.
  intros Hstatus Hdata. split; [|reflexivity].
  unfold main, fetch_cve_data. rewrite Hstatus, Hdata. reflexivity.
Qed.

Lemma falsy_payload_skips_save_witness :
  main env_ok healthy (Reply 200 (Some (VDict []))) (mk_db [payload] [stale])
  = ([info Fetching; info (Fetched 200); error NoDataFetched],
     mk_db [payload] [stale], Ok tt)
  /\
  main env_ok healthy (Reply 200 (Some (VList []))) (mk_db [payload] [stale])
  = ([info Fetching; info (Fetched 200); error NoDataFetched],
     mk_db [payload] [stale], Ok tt).
Proof.
  split.
  - exact (proj1 (falsy_payload_skips_save env_ok healthy 200 (VDict [])
                    (mk_db [payload] [stale]) eq_refl eq_refl)).
  - exact (proj1 (falsy_payload_skips_save env_ok healthy 200 (VList [])
                    (mk_db [payload] [stale]) eq_refl eq_refl)).
Defined.

End ExtractProps.

(** ** More on the record *)

Module RecordProps.
Import Py Log Mongo Transform Notions PyFacts TransformFacts BatchProps.
Import Samples Schema.

Lemma metrics_transformed_truthy (metrics_data : value) (mt : dict) :
  metrics_transformed metrics_data = Ok mt ->
  dict_keys mt = if truthy metrics_data then scoring_keys else [].
Proof.
  unfold metrics_transformed. destruct (truthy metrics_data).
  - intros H. bind_inv H. inversion H. reflexivity.
  - intros H. inversion H. reflexivity.
Qed.

(** A key that is not a scoring key is looked up in the items around the
    scoring fields. *)
Lemma outer_lookup (mt before after : dict) (k : string) :
  mt = [] \/ dict_keys mt = scoring_keys ->
  ~ In k scoring_keys ->
  dict_get (before ++ mt ++ after) k = dict_get (before ++ after) k.
Proof.
  intros Hmt Hk. rewrite !dict_get_app.
  rewrite (dict_get_not_key mt); [reflexivity|].
  destruct Hmt as [-> | ->]; [intros [] | exact Hk].
Qed.

Lemma project_cve (vuln_item : value) (cve : dict) (p : parts) :
  py_getitem_str vuln_item "cve" = Ok (VDict cve) ->
  project vuln_item = Ok p ->
  english_value (get_or cve "descriptions" (VList [])) = Ok (p_description p) /\
  (exists ms, get_or cve "metrics" (VDict []) = VDict ms /\
     metrics_transformed (get_or ms "cvssMetricV2" (VList []))
     = Ok (p_metrics p)) /\
  (exists wl, py_iter (get_or cve "weaknesses" (VList [])) = Ok wl /\
     weaknesses_loop wl [] = Ok (p_weaknesses p)) /\
  (exists rs, py_iter (get_or cve "references" (VList [])) = Ok rs /\
     url_set rs [] = Ok (p_urls p)) /\
  p_id p = get_or cve "id" VNone /\
  p_sourceIdentifier p = get_or cve "sourceIdentifier" VNone /\
  p_published p = get_or cve "published" VNone /\
  p_lastModified p = get_or cve "lastModified" VNone /\
  p_vulnStatus p = get_or cve "vulnStatus" VNone.
Proof.
  intros Hcve Hp. apply project_ok_inv in Hp.
  destruct Hp as (cve' & Hcve' & Hrest).
  rewrite Hcve in Hcve'. inversion Hcve'; subst cve'. exact Hrest.
Qed.

(** X1. The five identification fields of a record are those of the source
    [cve] object, copied as they are, None for a field the source does not
    have; [collected_at] is the clock reading passed in, not a source
    field. *)
Theorem base_fields_copied (set_order : list value -> list value)
    (collected_at : string) (vuln_item : value) (cve rec : dict) :
  py_getitem_str vuln_item "cve" = Ok (VDict cve) ->
  transform_vuln set_order collected_at vuln_item = Ok rec ->
  (forall k, In k copied_keys -> dict_get rec k = Some (get_or cve k VNone)) /\
  dict_get rec "collected_at" = Some (VStr collected_at).
Proof.
  intros Hcve H. apply transform_vuln_ok_inv in H.
  destruct H as (p & Hp & ->).
  destruct (project_cve _ _ _ Hcve Hp)
    as (_ & (ms & _ & Hmt) & _ & _ & Hid & Hsrc & Hpub & Hmod & Hst).
  split.
  - intros k Hk. unfold items_of. cbn in Hk.
    destruct Hk as [<-|[<-|[<-|[<-|[<-|[]]]]]]; cbn; congruence.
  - unfold items_of.
    rewrite outer_lookup; [reflexivity | | ].
    + exact (metrics_transformed_keys _ _ Hmt).
    + cbn. intros H. repeat (destruct H as [H|H]; [discriminate H|]). exact H.
Qed.

Lemma base_fields_copied_witness :
  exists rec,
    transform_vuln listing "2025-01-01T12:00:00" (vuln cve_weak) = Ok rec /\
    dict_get rec "id" = Some (VStr "CVE-2024-0006") /\
    dict_get rec "published" = Some (VStr "2024-02-01T00:00:00.000") /\
    dict_get rec "vulnStatus" = Some VNone /\
    dict_get rec "collected_at" = Some (VStr "2025-01-01T12:00:00").
Proof.
  eexists. split; [reflexivity|].
  pose proof (base_fields_copied listing "2025-01-01T12:00:00"
                (vuln cve_weak) cve_weak _ eq_refl eq_refl) as [Hall Hat].
  split; [|split; [|split]].
  - exact (Hall "id" (or_introl eq_refl)).
  - exact (Hall "published" (or_intror (or_intror (or_introl eq_refl)))).
  - exact (Hall "vulnStatus"
             (or_intror (or_intror (or_intror (or_intror (or_introl eq_refl)))))).
  - exact Hat.
Defined.

(** The scan yields the value of the first English entry, the empty
    string when no entry is English. *)
Lemma next_en_first_english (ds : list value) (v : value) :
  next_en ds = Ok v -> v = first_english ds.
Proof.
  unfold first_english.
  induction ds as [|d ds IH]; cbn [next_en find]; intros H.
  - congruence.
  - apply bind_ok_inv in H. destruct H as (lang & Hl & H).
    rewrite (py_get_lang_english _ _ Hl) in H.
    destruct (english d).
    + now apply py_get_value_entry.
    + exact (IH H).
Qed.

(** X2. The [weaknesses] of a record has one [{type, description}] object
    per weakness entry of the source, in the same order: [type] is copied
    (None when absent) and [description] is the value of the first English
    entry of the weakness's own description list, the empty string when it
    has no English entry. *)
Theorem weaknesses_in_order (set_order : list value -> list value)
    (collected_at : string) (vuln_item : value) (cve rec : dict) :
  py_getitem_str vuln_item "cve" = Ok (VDict cve) ->
  transform_vuln set_order collected_at vuln_item = Ok rec ->
  exists ws ds,
    py_iter (get_or cve "weaknesses" (VList [])) = Ok ws /\
    dict_get rec "weaknesses" = Some (VList ds) /\
    List.length ds = List.length ws /\
    Forall2 weakness_of ws ds.
Proof.
  intros Hcve H. apply transform_vuln_ok_inv in H.
  destruct H as (p & Hp & ->).
  destruct (project_cve _ _ _ Hcve Hp)
    as (_ & (ms & _ & Hmt) & (ws & Hws & Hloop) & _).
  destruct (weaknesses_loop_spec _ _ _ Hloop) as (ds & Hds & Hall).
  cbn [app] in Hds.
  exists ws, ds. split; [exact Hws | split; [|split]].
  - unfold items_of. rewrite outer_lookup.
    + cbn. now rewrite Hds.
    + exact (metrics_transformed_keys _ _ Hmt).
    + cbn. intros H. repeat (destruct H as [H|H]; [discriminate H|]). exact H.
  - symmetry. exact (Forall2_length Hall).
  - eapply Forall2_impl; [|exact Hall].
    intros w d (e & v & -> & Hv & ->).
    unfold english_value in Hv. apply bind_ok_inv in Hv.
    destruct Hv as (entries & Hiter & Hscan).
    exists e, entries. split; [reflexivity | split; [exact Hiter|]].
    now rewrite (next_en_first_english _ _ Hscan).
Qed.

Lemma weaknesses_in_order_witness :
  exists rec,
    transform_vuln listing "t" (vuln cve_weak_many) = Ok rec /\
    dict_get rec "weaknesses"
    = Some (VList [VDict [("type", VStr "Primary");
                          ("description", VStr "CWE-79")];
                   VDict [("type", VStr "Secondary");
                          ("description", VStr "")]]) /\
    exists ws ds : list value,
      dict_get rec "weaknesses" = Some (VList ds) /\
      List.length ws = 2 /\
      Forall2 weakness_of ws ds.
Proof.
  eexists. split; [reflexivity | split; [reflexivity|]].
  destruct (weaknesses_in_order listing "t" (vuln cve_weak_many)
              cve_weak_many _ eq_refl eq_refl)
    as (ws & ds & Hws & Hget & _ & Hall).
  exists ws, ds. split; [exact Hget | split; [|exact Hall]].
  cbn in Hws. inversion Hws. reflexivity.
Defined.

(** X3. The keys of a record, in order: the six head keys, then the
    eighteen scoring keys when the source's [cvssMetricV2] value is truthy
    and none otherwise, then [weaknesses], [references], [collected_at]. No
    key occurs twice, so a record has 9 or 27 fields. *)
Theorem record_keys (set_order : list value -> list value)
    (collected_at : string) (vuln_item : value) (cve rec : dict) :
  py_getitem_str vuln_item "cve" = Ok (VDict cve) ->
  transform_vuln set_order collected_at vuln_item = Ok rec ->
  exists ms,
    get_or cve "metrics" (VDict []) = VDict ms /\
    dict_keys rec
    = head_keys
      ++ (if truthy (get_or ms "cvssMetricV2" (VList []))
          then scoring_keys else [])
      ++ tail_keys /\
    NoDup (dict_keys rec) /\
    (List.length rec = 9 \/ List.length rec = 27).
Proof.
  intros Hcve H. apply transform_vuln_ok_inv in H.
  destruct H as (p & Hp & ->).
  destruct (project_cve _ _ _ Hcve Hp) as (_ & (ms & Hms & Hmt) & _).
  exists ms. split; [exact Hms|].
  pose proof (metrics_transformed_truthy _ _ Hmt) as Hk.
  assert (Hkeys : dict_keys (items_of set_order collected_at p)
                  = head_keys
                    ++ (if truthy (get_or ms "cvssMetricV2" (VList []))
                        then scoring_keys else [])
                    ++ tail_keys).
  { unfold items_of, dict_keys in *. rewrite !map_app. now rewrite Hk. }
  split; [exact Hkeys | split].
  - eapply items_of_keys. exact Hp.
  - rewrite <- (length_map fst). fold (dict_keys (items_of set_order collected_at p)).
    rewrite Hkeys.
    destruct (truthy (get_or ms "cvssMetricV2" (VList [])));
      [right | left]; reflexivity.
Qed.

Lemma record_keys_witness :
  (exists rec,
      transform_vuln listing "t" (vuln cve_scored) = Ok rec /\
      List.length rec = 27 /\ NoDup (dict_keys rec))
  /\
  (exists rec,
      transform_vuln listing "t" (vuln cve_weak) = Ok rec /\
      dict_keys rec = head_keys ++ tail_keys).
Proof.
  split; eexists; (split; [reflexivity|]).
  - destruct (record_keys listing "t" (vuln cve_scored) cve_scored _
                eq_refl eq_refl) as (ms & _ & _ & Hnd & _).
    split; [reflexivity | exact Hnd].
  - destruct (record_keys listing "t" (vuln cve_weak) cve_weak _
                eq_refl eq_refl) as (ms & Hms & Hkeys & _).
    cbn in Hms. inversion Hms; subst ms. exact Hkeys.
Defined.

(** An entry that is an object without a [cve] key raises KeyError('cve');
    one whose [cve] is not an object raises AttributeError at the first
    [cve.get]. *)
Lemma entry_without_cve_raises (set_order : list value -> list value)
    (collected_at : string) (it : dict) :
  (dict_get it "cve" = None ->
   transform_vuln set_order collected_at (VDict it)
   = Raise (KeyError (VStr "cve")))
  /\
  (forall c, dict_get it "cve" = Some c -> is_dict c = false ->
     transform_vuln set_order collected_at (VDict it)
     = Raise (AttributeError (type_of c) "get")).
Proof.
  split.
  - intros H. unfold transform_vuln. cbn [py_getitem_str]. now rewrite H.
  - intros c H Hc. unfold transform_vuln. cbn [py_getitem_str].
    rewrite H. cbn [bind]. destruct c; try reflexivity. discriminate.
Qed.

Lemma records_of_app (set_order : list value -> list value)
    (utcnow : nat -> string) (a b : list value) :
  forall i,
    records_of set_order utcnow i (a ++ b)
    = records_of set_order utcnow i a
      ++ records_of set_order utcnow (i + List.length a) b.
Proof.
  induction a as [|x a IH]; intros i; cbn [app records_of List.length].
  - now rewrite Nat.add_0_r.
  - rewrite (IH (S i)). replace (S i + List.length a) with (i + S (List.length a)) by lia.
    destruct (project x); reflexivity.
Qed.

Lemma errors_of_app (a b : list value) :
  errors_of (a ++ b) = errors_of a ++ errors_of b.
Proof.
  induction a as [|x a IH]; cbn [app errors_of]; [reflexivity|].
  rewrite IH. destruct (projection_error x); reflexivity.
Qed.

Lemma warnings_for_app (a b : list exn) :
  warnings_for (a ++ b) = warnings_for a ++ warnings_for b.
Proof.
  unfold warnings_for. apply flat_map_app.
Qed.

(** X4. An entry of the batch without a usable [cve] is skipped and named in
    the log: for an object without the key the two warnings carry
    KeyError('cve'), for one whose [cve] is not an object they carry the
    AttributeError of the first [cve.get]; the entries before and after it
    give the records and warnings they would give without it, the later
    ones still stamped with their own positions. *)
Theorem entry_without_cve_skipped (set_order : list value -> list value)
    (utcnow : nat -> string) (pre post : list value) (it : dict) (e : exn) :
  (dict_get it "cve" = None /\ e = KeyError (VStr "cve"))
  \/
  (exists c, dict_get it "cve" = Some c /\ is_dict c = false /\
             e = AttributeError (type_of c) "get") ->
  transform_loop set_order utcnow 0 (pre ++ VDict it :: post) [] []
  = (records_of set_order utcnow 0 pre
       ++ records_of set_order utcnow (S (List.length pre)) post,
     warnings_for (errors_of pre)
       ++ [warning (RecordFailed e); warning (Traceback e)]
       ++ warnings_for (errors_of post)).
Proof.
  intros H.
  assert (Hraise : project (VDict it) = Raise e).
  { pose proof (transform_vuln_project set_order "" (VDict it)) as Hp.
    destruct (entry_without_cve_raises set_order "" it) as [Hnone Hsome].
    destruct H as [[Hk ->] | (c & Hc & Hd & ->)].
    - rewrite (Hnone Hk) in Hp. destruct (project (VDict it)); [discriminate|].
      cbn in Hp. congruence.
    - rewrite (Hsome c Hc Hd) in Hp.
      destruct (project (VDict it)); [discriminate|]. cbn in Hp. congruence. }
  rewrite transform_loop_spec. cbn [app].
  rewrite records_of_app, errors_of_app. cbn [records_of errors_of].
  unfold projection_error. rewrite Hraise. cbn [Nat.add].
  rewrite warnings_for_app. reflexivity.
Qed.

Lemma entry_without_cve_skipped_witness :
  transform_loop listing noon 0 [vuln cve_fr; no_cve; vuln cve_fr] [] []
  = (records_of listing noon 0 [vuln cve_fr]
       ++ records_of listing noon 2 [vuln cve_fr],
     [warning (RecordFailed (KeyError (VStr "cve")));
      warning (Traceback (KeyError (VStr "cve")))]).
Proof.
  exact (entry_without_cve_skipped listing noon [vuln cve_fr] [vuln cve_fr]
           [("id", VStr "CVE-2024-0008")] (KeyError (VStr "cve"))
           (or_introl (conj eq_refl eq_refl))).
Defined.

(** The set comprehension only gets through a list of entries each of
    which is an object with a falsy or hashable [url]. *)
Lemma url_set_ok_inv (rs : list value) :
  forall s s', url_set rs s = Ok s' -> forallb reference_ok rs = true.
Proof.
  induction rs as [|r rs IH]; intros s s' H; [reflexivity|].
  cbn [url_set] in H. apply bind_ok_inv in H. destruct H as (c & Hc & H).
  apply py_get_ok_inv in Hc. destruct Hc as (e & -> & ->).
  cbn [forallb reference_ok].
  destruct (truthy (get_or e "url" VNone)) eqn:Ht; cbn [negb orb].
  - rewrite py_get_dict in H. cbn [bind] in H.
    apply bind_ok_inv in H. destruct H as (s1 & Hadd & H).
    unfold set_add in Hadd.
    destruct (hashable (get_or e "url" VNone)); [|discriminate].
    cbn [andb]. exact (IH _ _ H).
  - exact (IH _ _ H).
Qed.

Lemma Forall2_in_left {A B : Type} (R : A -> B -> Prop) (l : list A)
    (l' : list B) (x : A) :
  Forall2 R l l' -> In x l -> exists y, In y l' /\ R x y.
Proof.
  intros H. induction H as [|a b l l' Hab _ IH]; intros Hin; [destruct Hin|].
  destruct Hin as [<-|Hin].
  - exists b. split; [now left | exact Hab].
  - destruct (IH Hin) as (y & Hy & Hxy). exists y. split; [now right | exact Hxy].
Qed.

(** X5. One bad entry fails the whole record, not just its field: if the
    [references] list of the source holds an entry that is not an object, or
    whose [url] is a non-empty list or object (unhashable), or if its
    [weaknesses] list holds an entry that is not an object, the [try] body
    raises and the record is skipped. *)
Theorem bad_entry_fails_record (set_order : list value -> list value)
    (collected_at : string) (vuln_item : value) (cve : dict) :
  py_getitem_str vuln_item "cve" = Ok (VDict cve) ->
  (exists rs r, dict_get cve "references" = Some (VList rs) /\
                In r rs /\ reference_ok r = false)
  \/
  (exists ws w, dict_get cve "weaknesses" = Some (VList ws) /\
                In w ws /\ is_dict w = false) ->
  is_ok (transform_vuln set_order collected_at vuln_item) = false.
Proof.
  intros Hcve Hbad.
  destruct (transform_vuln set_order collected_at vuln_item) as [rec|e] eqn:H;
    [exfalso | reflexivity].
  apply transform_vuln_ok_inv in H. destruct H as (p & Hp & _).
  destruct (project_cve _ _ _ Hcve Hp)
    as (_ & _ & (wl & Hwl & Hloop) & (rl & Hrl & Hset) & _).
  destruct Hbad as [(rs & r & Hrs & Hin & Hr) | (ws & w & Hws & Hin & Hw)].
  - unfold get_or in Hrl. rewrite Hrs in Hrl. cbn in Hrl.
    inversion Hrl; subst rl.
    pose proof (url_set_ok_inv _ _ _ Hset) as Hall.
    rewrite forallb_forall in Hall. rewrite (Hall r Hin) in Hr. discriminate.
  - unfold get_or in Hwl. rewrite Hws in Hwl. cbn in Hwl.
    inversion Hwl; subst wl.
    destruct (weaknesses_loop_spec _ _ _ Hloop) as (ds & _ & Hall).
    destruct (Forall2_in_left _ _ _ _ Hall Hin) as (d & _ & e0 & v & -> & _).
    discriminate.
Qed.

Lemma bad_entry_fails_record_witness :
  is_ok (transform_vuln listing "t" (vuln cve_bad_reference)) = false.
Proof.
  refine (bad_entry_fails_record listing "t" (vuln cve_bad_reference)
            cve_bad_reference eq_refl
            (or_introl
               (ex_intro _ [VDict [("url", VList [VStr "http://a"])]]
                  (ex_intro _ (VDict [("url", VList [VStr "http://a"])])
                     (conj eq_refl (conj (or_introl eq_refl) eq_refl)))))).
Defined.

(** *** Conforming records *)

Lemma next_en_dicts (ds : list value) :
  forallb is_dict ds = true -> exists v, next_en ds = Ok v.
Proof.
  induction ds as [|d ds IH]; cbn [forallb next_en]; intros H.
  - now eexists.
  - apply andb_prop in H. destruct H as [Hd Hds].
    destruct d; try discriminate. rewrite py_get_dict. cbn [bind].
    destruct (py_eq (get_or d "lang" VNone) (VStr "en")).
    + rewrite py_get_dict. now eexists.
    + exact (IH Hds).
Qed.

Lemma english_value_ok (v : value) :
  descriptions_ok v = true -> exists x, english_value v = Ok x.
Proof.
  destruct v; try discriminate. cbn [descriptions_ok]. intros H.
  unfold english_value. cbn [py_iter bind]. now apply next_en_dicts.
Qed.

Lemma weaknesses_loop_ok (ws : list value) :
  forallb weakness_ok ws = true ->
  forall acc, exists out, weaknesses_loop ws acc = Ok out.
Proof.
  induction ws as [|w ws IH]; cbn [forallb weaknesses_loop]; intros H acc.
  - now eexists.
  - apply andb_prop in H. destruct H as [Hw Hws].
    destruct w; try discriminate. rewrite !py_get_dict. cbn [bind].
    cbn [weakness_ok] in Hw.
    destruct (english_value_ok _ Hw) as (x & ->). cbn [bind].
    apply (IH Hws).
Qed.

Lemma url_set_ok (rs : list value) :
  forallb reference_ok rs = true ->
  forall s, exists s', url_set rs s = Ok s'.
Proof.
  induction rs as [|r rs IH]; cbn [forallb url_set]; intros H s.
  - now eexists.
  - apply andb_prop in H. destruct H as [Hr Hrs].
    destruct r; try discriminate. rewrite !py_get_dict. cbn [bind].
    cbn [reference_ok] in Hr.
    destruct (truthy (get_or d "url" VNone)); cbn [negb orb] in Hr.
    + unfold set_add. rewrite Hr. cbn [bind]. apply (IH Hrs).
    + apply (IH Hrs).
Qed.

Lemma metrics_transformed_ok (ms : dict) :
  metrics_ok (VDict ms) = true ->
  exists mt,
    metrics_transformed (get_or ms "cvssMetricV2" (VList [])) = Ok mt.
Proof.
  cbn [metrics_ok].
  destruct (get_or ms "cvssMetricV2" (VList [])) as [| | | | |l|];
    try discriminate.
  destruct l as [|m later]; intros H.
  - now eexists.
  - unfold metrics_transformed. cbn [truthy].
    rewrite py_getitem_int_head. cbn [bind].
    destruct m as [| | | | | |e]; try discriminate. cbn [metric_ok] in H.
    rewrite !py_get_dict. cbn [bind].
    destruct (get_or e "cvssData" (VDict [])) as [| | | | | |c];
      try discriminate.
    rewrite !py_get_dict. cbn [bind]. now eexists.
Qed.

Lemma conforming_projects (vuln_item : value) :
  conforming vuln_item = true -> exists p, project vuln_item = Ok p.
Proof.
  unfold conforming. destruct vuln_item as [| | | | | |it]; try discriminate.
  destruct (dict_get it "cve") as [c|] eqn:Hc; [|discriminate].
  destruct c as [| | | | | |cve]; try discriminate.
  intros H.
  apply andb_prop in H. destruct H as [H Hrefs].
  apply andb_prop in H. destruct H as [H Hweak].
  apply andb_prop in H. destruct H as [Hdesc Hmet].
  unfold project. cbn [py_getitem_str]. rewrite Hc. cbn [bind].
  rewrite !py_get_dict. cbn [bind].
  destruct (english_value_ok _ Hdesc) as (description & ->). cbn [bind].
  destruct (get_or cve "metrics" (VDict [])) as [| | | | | |ms];
    try discriminate.
  rewrite py_get_dict. cbn [bind].
  destruct (metrics_transformed_ok _ Hmet) as (mt & ->). cbn [bind].
  destruct (get_or cve "weaknesses" (VList [])) as [| | | | |ws|];
    try discriminate.
  cbn [py_iter bind]. cbn [weaknesses_ok] in Hweak.
  destruct (weaknesses_loop_ok _ Hweak []) as (wl & ->). cbn [bind].
  destruct (get_or cve "references" (VList [])) as [| | | | |rs|];
    try discriminate.
  cbn [py_iter bind]. cbn [references_ok] in Hrefs.
  destruct (url_set_ok _ Hrefs []) as (s & ->). cbn [bind].
  now eexists.
Qed.

(** X6. A conforming entry is never skipped. An entry conforms when it is
    an object whose [cve] is an object in which [descriptions], when
    present, is a list of objects; [metrics], when present, is an object
    whose [cvssMetricV2], when present, is an empty list or a list whose
    first element is an object whose [cvssData], when present, is an object;
    [weaknesses], when present, is a list of objects each of whose
    [description], when present, is a list of objects; and [references],
    when present, is a list of objects each of whose [url] is falsy or
    hashable. For such an entry the [try] body builds a complete record,
    whatever the clock and the listing order of the set. *)
Theorem conforming_record_transforms (set_order : list value -> list value)
    (collected_at : string) (vuln_item : value) :
  conforming vuln_item = true ->
  malformed vuln_item = false /\
  exists rec,
    transform_vuln set_order collected_at vuln_item = Ok rec /\
    complete rec.
Proof.
  intros H. destruct (conforming_projects _ H) as (p & Hp).
  split.
  - unfold malformed, projection_error. now rewrite Hp.
  - exists (items_of set_order collected_at p).
    split; [now apply transform_vuln_of_project | apply items_of_complete].
Qed.

Lemma conforming_record_transforms_witness :
  malformed (vuln cve_scored) = false /\
  exists rec, transform_vuln reversed "t" (vuln cve_scored) = Ok rec /\
              complete rec.
Proof.
  exact (conforming_record_transforms reversed "t" (vuln cve_scored) eq_refl).
Defined.

Lemma conforming_not_malformed (items : list value) :
  forallb conforming items = true -> filter malformed items = [].
Proof.
  induction items as [|x items IH]; cbn [forallb filter]; intros H;
    [reflexivity|].
  apply andb_prop in H. destruct H as [Hx Hitems].
  destruct (conforming_projects _ Hx) as (p & Hp).
  unfold malformed at 1, projection_error. rewrite Hp. exact (IH Hitems).
Qed.

Lemma errors_of_nil (items : list value) :
  filter malformed items = [] -> errors_of items = [].
Proof.
  intros H. pose proof (errors_of_length items) as Hlen. rewrite H in Hlen.
  destruct (errors_of items); [reflexivity | discriminate].
Qed.

(** X7. A batch all of whose entries conform gives one record per entry
    and logs no warning. *)
Theorem conforming_batch (set_order : list value -> list value)
    (utcnow : nat -> string) (items : list value) :
  forallb conforming items = true ->
  exists vulnerabilities,
    transform_loop set_order utcnow 0 items [] [] = (vulnerabilities, []) /\
    List.length vulnerabilities = List.length items.
Proof.
  intros H. pose proof (conforming_not_malformed _ H) as Hnone.
  exists (records_of set_order utcnow 0 items). split.
  - rewrite transform_loop_spec, (errors_of_nil _ Hnone). reflexivity.
  - pose proof (records_of_length set_order utcnow items 0) as Hlen.
    rewrite Hnone in Hlen. cbn [List.length] in Hlen. lia.
Qed.

Lemma conforming_batch_witness :
  exists vulnerabilities,
    transform_loop listing noon 0
      [vuln cve_xss; vuln cve_scored; vuln cve_weak] [] []
    = (vulnerabilities, []) /\
    List.length vulnerabilities = 3.
Proof.
  exact (conforming_batch listing noon
           [vuln cve_xss; vuln cve_scored; vuln cve_weak] eq_refl).
Defined.

End RecordProps.

(** ** More on the runs of the transformer *)

Module StoreProps.
Import Py Log Mongo Transform Notions PyFacts TransformFacts BatchProps.
Import RunProps Samples Schema.

Lemma load_raw_data_ok (srv : server) (st : db) (raw_data : dict)
    (items : list value) :
  find_ok srv = true ->
  find_one (nvd_raw st) = Some raw_data ->
  dict_get raw_data "vulnerabilities" = Some (VList items) ->
  load_raw_data srv st = ([info (RawLoaded (List.length items))], Ok raw_data).
Proof.
  intros Hf Hone Hv. unfold load_raw_data. rewrite Hf, Hone. cbn [bind].
  unfold dict_contains. rewrite Hv.
  destruct raw_data as [|kv raw_data]; [discriminate|].
  cbn [truthy negb orb]. rewrite py_get_dict. unfold get_or. rewrite Hv.
  reflexivity.
Qed.

Lemma transform_data_ok (set_order : list value -> list value)
    (utcnow : nat -> string) (raw_data : dict) (items : list value) :
  dict_get raw_data "vulnerabilities" = Some (VList items) ->
  transform_data set_order utcnow raw_data
  = (warnings_for (errors_of items)
       ++ [info (Transformed
                   (List.length (records_of set_order utcnow 0 items)))],
     Ok (records_of set_order utcnow 0 items)).
Proof.
  intros Hv. unfold transform_data. rewrite py_get_dict. unfold get_or.
  rewrite Hv. cbn [bind py_iter]. rewrite transform_loop_spec. reflexivity.
Qed.

(** What the store step does when there is nothing to insert or the insert
    goes through. *)
Lemma store_transformed_ok (srv : server) (vs : list dict) (st : db) :
  vs = [] \/ inserts srv = true ->
  store_transformed srv vs st
  = (match vs with
     | [] => [warning NothingToInsert]
     | _ :: _ => [info (Inserted (List.length vs))]
     end,
     mk_db (nvd_raw st) (nvd_vulnerabilities st ++ vs), Ok tt).
Proof.
  intros H. unfold store_transformed.
  destruct vs as [|v vs].
  - rewrite app_nil_r. destruct st; reflexivity.
  - destruct H as [H|H]; [discriminate|].
    unfold inserts in H. apply andb_prop in H. destruct H as [-> ->].
    reflexivity.
Qed.

Lemma connects_inv (env : environ) (srv : server) :
  connects env srv = true ->
  unset (MONGO_URI env) || unset (MONGO_DB_NAME env) = false /\
  connect env srv = ([info (Connected (db_name env))], Ok tt).
Proof.
  unfold connects. intros H.
  apply andb_prop in H. destruct H as [H Hn].
  apply andb_prop in H. destruct H as [H Hp].
  apply andb_prop in H. destruct H as [H Hr].
  apply andb_prop in H. destruct H as [He Hu].
  split; [now apply negb_true_iff in He | now apply connect_ok].
Qed.

(** A run that gets through the connection and finds a raw document with a
    list of vulnerabilities, with the delete going through or not, and with
    nothing to insert or an insert that goes through. *)
Lemma transformer_run (set_order : list value -> list value)
    (utcnow : nat -> string) (env : environ) (srv : server) (st : db)
    (raw_data : dict) (items : list value) :
  connects env srv = true ->
  find_ok srv = true ->
  records_of set_order utcnow 0 items = [] \/ inserts srv = true ->
  find_one (nvd_raw st) = Some raw_data ->
  dict_get raw_data "vulnerabilities" = Some (VList items) ->
  let r := transformer set_order utcnow env srv st in
  let vs := records_of set_order utcnow 0 items in
  final r
  = mk_db (nvd_raw st)
      ((if delete_ok srv then [] else nvd_vulnerabilities st) ++ vs) /\
  ended r = Completed /\
  logged r
  = [info EnvLoaded] ++ [info (Connected (db_name env))]
    ++ fst (clear_old_data srv st)
    ++ [info (RawLoaded (List.length items))]
    ++ (warnings_for (errors_of items)
        ++ [info (Transformed (List.length vs))])
    ++ match vs with
       | [] => [warning NothingToInsert]
       | _ :: _ => [info (Inserted (List.length vs))]
       end
    ++ [info Done].
Proof.
  intros Hc Hf Hi Hone Hv r vs. subst r vs.
  destruct (connects_inv _ _ Hc) as [Henv Hconn].
  unfold transformer, load_env. rewrite Henv, Hconn.
  unfold clear_old_data.
  destruct (delete_ok srv).
  - rewrite (load_raw_data_ok srv (mk_db (nvd_raw st) []) raw_data items
               Hf Hone Hv).
    rewrite (transform_data_ok _ _ _ _ Hv).
    rewrite (store_transformed_ok _ _ _ Hi).
    cbn [final ended logged nvd_raw nvd_vulnerabilities fst].
    split; [reflexivity | split; reflexivity].
  - rewrite (load_raw_data_ok srv _ raw_data items Hf Hone Hv).
    rewrite (transform_data_ok _ _ _ _ Hv).
    rewrite (store_transformed_ok _ _ _ Hi).
    cbn [final ended logged nvd_raw nvd_vulnerabilities fst].
    split; [reflexivity | split; reflexivity].
Qed.

(** X8. Full replace. When the connection goes through (configuration set,
    connection string and database name accepted by the driver, server
    answering) and the delete, the read and the insert go through, a run
    whose first raw document has a list of vulnerabilities completes and
    leaves in the normalized store exactly the records of that batch, N - M
    of them, whatever the store held before; the raw store is untouched and
    the count logged after the loop is N - M. *)
Theorem healthy_run_replaces_store (set_order : list value -> list value)
    (utcnow : nat -> string) (env : environ) (srv : server) (st : db)
    (raw_data : dict) (items : list value) :
  connects env srv = true ->
  delete_ok srv = true -> find_ok srv = true -> inserts srv = true ->
  find_one (nvd_raw st) = Some raw_data ->
  dict_get raw_data "vulnerabilities" = Some (VList items) ->
  let r := transformer set_order utcnow env srv st in
  let n := List.length items - List.length (filter malformed items) in
  final r = mk_db (nvd_raw st) (records_of set_order utcnow 0 items) /\
  ended r = Completed /\
  List.length (nvd_vulnerabilities (final r)) = n /\
  In (info (Transformed n)) (logged r).
Proof.
  intros Hc Hd Hf Hi Hone Hv r n. subst r n.
  destruct (transformer_run set_order utcnow env srv st raw_data items
              Hc Hf (or_intror Hi) Hone Hv) as (Hfinal & Hend & Hlog).
  rewrite Hd in Hfinal. cbn [app] in Hfinal.
  pose proof (records_of_length set_order utcnow items 0) as Hlen.
  assert (Hn : List.length (records_of set_order utcnow 0 items)
               = List.length items - List.length (filter malformed items))
    by lia.
  split; [exact Hfinal | split; [exact Hend | split]].
  - rewrite Hfinal. exact Hn.
  - rewrite Hlog, <- Hn.
    apply in_or_app; right. apply in_or_app; right. apply in_or_app; right.
    apply in_or_app; right. apply in_or_app; left.
    apply in_or_app; right. now left.
Qed.

Lemma healthy_run_replaces_store_witness :
  let r := transformer listing noon env_ok healthy (mk_db [payload] [stale]) in
  ended r = Completed /\
  List.length (nvd_vulnerabilities (final r)) = 2 /\
  ~ In stale (nvd_vulnerabilities (final r)) /\
  In (info (Transformed 2)) (logged r).
Proof.
  pose proof (healthy_run_replaces_store listing noon env_ok healthy
                (mk_db [payload] [stale]) payload
                [vuln cve_empty_url; VDict []; vuln cve_scored]
                eq_refl eq_refl eq_refl eq_refl eq_refl eq_refl)
    as (Hfinal & Hend & Hlen & Hlog).
  split; [exact Hend | split; [exact Hlen | split; [|exact Hlog]]].
  rewrite Hfinal. cbn. intros [H|[H|[]]]; discriminate H.
Defined.

(** X9. A failed clear is not fatal and turns the replace into an append:
    when the connection, the read and the insert go through but the delete
    fails (leaving the collection as it was), the run still completes, and
    the normalized store then holds its previous documents followed by the
    new records. *)
Theorem failed_clear_appends (set_order : list value -> list value)
    (utcnow : nat -> string) (env : environ) (srv : server) (st : db)
    (raw_data : dict) (items : list value) :
  connects env srv = true ->
  delete_ok srv = false -> find_ok srv = true -> inserts srv = true ->
  find_one (nvd_raw st) = Some raw_data ->
  dict_get raw_data "vulnerabilities" = Some (VList items) ->
  let r := transformer set_order utcnow env srv st in
  final r
  = mk_db (nvd_raw st)
      (nvd_vulnerabilities st ++ records_of set_order utcnow 0 items) /\
  ended r = Completed /\
  In (error (ClearFailed PyMongoError)) (logged r).
Proof.
  intros Hc Hd Hf Hi Hone Hv r. subst r.
  destruct (transformer_run set_order utcnow env srv st raw_data items
              Hc Hf (or_intror Hi) Hone Hv) as (Hfinal & Hend & Hlog).
  rewrite Hd in Hfinal.
  split; [exact Hfinal | split; [exact Hend|]].
  rewrite Hlog. unfold clear_old_data. rewrite Hd.
  apply in_or_app; right. apply in_or_app; right.
  apply in_or_app; left. now left.
Qed.

Lemma failed_clear_appends_witness :
  let r := transformer listing noon env_ok no_delete
             (mk_db [payload] [stale]) in
  ended r = Completed /\
  List.length (nvd_vulnerabilities (final r)) = 3 /\
  In stale (nvd_vulnerabilities (final r)).
Proof.
  pose proof (failed_clear_appends listing noon env_ok no_delete
                (mk_db [payload] [stale]) payload
                [vuln cve_empty_url; VDict []; vuln cve_scored]
                eq_refl eq_refl eq_refl eq_refl eq_refl eq_refl)
    as (Hfinal & Hend & _).
  split; [exact Hend|]. rewrite Hfinal. split; [reflexivity | now left].
Defined.

Lemma records_of_all_malformed (set_order : list value -> list value)
    (utcnow : nat -> string) (items : list value) (i : nat) :
  forallb malformed items = true ->
  records_of set_order utcnow i items = [] /\
  List.length (errors_of items) = List.length items.
Proof.
  revert i. induction items as [|x items IH]; intros i;
    cbn [forallb records_of errors_of]; intros H; [now split|].
  apply andb_prop in H. destruct H as [Hx Hitems].
  unfold malformed, projection_error in Hx. unfold projection_error.
  destruct (project x); [discriminate|].
  destruct (IH (S i) Hitems) as [-> Hlen]. cbn [List.length].
  now rewrite Hlen.
Qed.

(** X10. A batch with no usable entry (an empty list, or every entry
    malformed) is not an error: when the connection, the delete and the
    read go through, the run completes, inserts nothing, leaves the
    normalized store empty and logs the 'No vulnerabilities to insert'
    warning after the two warnings of each entry. *)
Theorem nothing_to_insert (set_order : list value -> list value)
    (utcnow : nat -> string) (env : environ) (srv : server) (st : db)
    (raw_data : dict) (items : list value) :
  connects env srv = true ->
  delete_ok srv = true -> find_ok srv = true ->
  find_one (nvd_raw st) = Some raw_data ->
  dict_get raw_data "vulnerabilities" = Some (VList items) ->
  forallb malformed items = true ->
  let r := transformer set_order utcnow env srv st in
  final r = mk_db (nvd_raw st) [] /\
  ended r = Completed /\
  In (warning NothingToInsert) (logged r) /\
  warnings (logged r) = 2 * List.length items + 1.
Proof.
  intros Hc Hd Hf Hone Hv Hall r. subst r.
  destruct (records_of_all_malformed set_order utcnow items 0 Hall)
    as [Hnil Hlen].
  destruct (transformer_run set_order utcnow env srv st raw_data items
              Hc Hf (or_introl Hnil) Hone Hv) as (Hfinal & Hend & Hlog).
  rewrite Hnil in Hfinal, Hlog. rewrite Hd in Hfinal. cbn [app] in Hfinal.
  split; [exact Hfinal | split; [exact Hend|]].
  rewrite Hlog. unfold clear_old_data. rewrite Hd. split.
  - apply in_or_app; right. apply in_or_app; right. apply in_or_app; right.
    apply in_or_app; right. apply in_or_app; right.
    apply in_or_app; left. now left.
  - unfold warnings. cbn [fst].
    rewrite !filter_app. cbn [filter is_warning lvl info warning app].
    rewrite !length_app. cbn [List.length].
    fold (warnings (warnings_for (errors_of items))).
    rewrite warnings_for_count, Hlen. lia.
Qed.

Lemma nothing_to_insert_witness :
  let r := transformer listing noon env_ok healthy
             (mk_db [payload_bad] [stale]) in
  final r = mk_db [payload_bad] [] /\
  ended r = Completed /\
  In (warning NothingToInsert) (logged r) /\
  warnings (logged r) = 5.
Proof.
  exact (nothing_to_insert listing noon env_ok healthy
           (mk_db [payload_bad] [stale])
           payload_bad [no_cve; vuln cve_bad_reference]
           eq_refl eq_refl eq_refl eq_refl eq_refl eq_refl).
Defined.

(** X11. A [vulnerabilities] field that is present but has no length
    (null, a number, a boolean) passes the presence test and then fails
    [len()] inside the loading step: when the connection, the delete and the
    read go through, the run aborts there with that TypeError, not the
    ValueError of a missing field, after the normalized store has been
    cleared. *)
Theorem unsized_vulnerabilities_abort (set_order : list value -> list value)
    (utcnow : nat -> string) (env : environ) (srv : server) (st : db)
    (raw_data : dict) (v : value) :
  connects env srv = true ->
  delete_ok srv = true -> find_ok srv = true ->
  find_one (nvd_raw st) = Some raw_data ->
  dict_get raw_data "vulnerabilities" = Some v ->
  is_ok (py_len v) = false ->
  let r := transformer set_order utcnow env srv st in
  ended r = Aborted (TypeError_no_len (type_of v)) /\
  final r = mk_db (nvd_raw st) [] /\
  In (error (RawLoadFailed (TypeError_no_len (type_of v)))) (logged r).
Proof.
  intros Hc Hd Hf Hone Hv Hlen r. subst r.
  destruct (connects_inv _ _ Hc) as [Henv Hconn].
  assert (Hload : load_raw_data srv (mk_db (nvd_raw st) [])
                  = ([error (RawLoadFailed (TypeError_no_len (type_of v)));
                      error (Traceback (TypeError_no_len (type_of v)))],
                     Raise (TypeError_no_len (type_of v)))).
  { unfold load_raw_data. rewrite Hf. cbn [nvd_raw]. rewrite Hone.
    cbn [bind]. unfold dict_contains. rewrite Hv.
    destruct raw_data as [|kv raw_data]; [discriminate|].
    cbn [truthy negb orb]. rewrite py_get_dict. unfold get_or. rewrite Hv.
    cbn [bind]. destruct v; try discriminate; reflexivity. }
  unfold transformer, load_env. rewrite Henv, Hconn.
  unfold clear_old_data. rewrite Hd, Hload.
  cbn [final ended logged].
  split; [reflexivity | split; [reflexivity|]].
  cbn. right; right; right. now left.
Qed.

Lemma unsized_vulnerabilities_abort_witness :
  let r := transformer listing noon env_ok healthy
             (mk_db [payload_null] [stale]) in
  ended r = Aborted (TypeError_no_len TNone) /\
  final r = mk_db [payload_null] [].
Proof.
  pose proof (unsized_vulnerabilities_abort listing noon env_ok healthy
                (mk_db [payload_null] [stale]) payload_null VNone
                eq_refl eq_refl eq_refl eq_refl eq_refl eq_refl)
    as (Hend & Hfinal & _).
  split; [exact Hend | exact Hfinal].
Defined.

(** X12. Only the first raw document is read: the raw documents after it
    change neither the way the run ends, nor its log, nor the normalized
    store it leaves; they are left in the raw store. *)
Theorem only_first_raw_document (set_order : list value -> list value)
    (utcnow : nat -> string) (env : environ) (srv : server)
    (d : dict) (others old : list dict) :
  let r := transformer set_order utcnow env srv (mk_db (d :: others) old) in
  let r1 := transformer set_order utcnow env srv (mk_db [d] old) in
  ended r = ended r1 /\
  logged r = logged r1 /\
  nvd_vulnerabilities (final r) = nvd_vulnerabilities (final r1) /\
  nvd_raw (final r) = d :: others.
Proof.
  intros r r1. subst r r1. unfold transformer.
  destruct (load_env env) as [l1 [[]|e]]; [|now repeat split].
  destruct (connect env srv) as [l2 [[]|e]]; [|now repeat split].
  unfold clear_old_data. cbn [nvd_raw nvd_vulnerabilities].
  destruct (delete_ok srv).
  - change (load_raw_data srv (mk_db (d :: others) []))
      with (load_raw_data srv (mk_db [d] [])).
    destruct (load_raw_data srv (mk_db [d] [])) as [l4 [raw_data|e]];
      [|now repeat split].
    destruct (transform_data set_order utcnow raw_data) as [l5 [vs|e]];
      [|now repeat split].
    unfold store_transformed. cbn [nvd_raw nvd_vulnerabilities].
    destruct vs; [now repeat split|].
    destruct (encodable srv); cbn [negb]; [|now repeat split].
    destruct (insert_ok srv); now repeat split.
  - change (load_raw_data srv (mk_db (d :: others) old))
      with (load_raw_data srv (mk_db [d] old)).
    destruct (load_raw_data srv (mk_db [d] old)) as [l4 [raw_data|e]];
      [|now repeat split].
    destruct (transform_data set_order utcnow raw_data) as [l5 [vs|e]];
      [|now repeat split].
    unfold store_transformed. cbn [nvd_raw nvd_vulnerabilities].
    destruct vs; [now repeat split|].
    destruct (encodable srv); cbn [negb]; [|now repeat split].
    destruct (insert_ok srv); now repeat split.
Qed.

(** X13. The transformer never writes to the raw store, however the run
    goes; and when the configuration is missing or the server does not
    answer, it aborts with the whole database as it was, the normalized
    store not cleared. *)
Theorem transformer_keeps_raw_store (set_order : list value -> list value)
    (utcnow : nat -> string) (env : environ) (srv : server) (st : db) :
  let r := transformer set_order utcnow env srv st in
  nvd_raw (final r) = nvd_raw st /\
  (unset (MONGO_URI env) || unset (MONGO_DB_NAME env) || negb (reachable srv)
   = true ->
   final r = st /\ exists e, ended r = Aborted e).
Proof.
  intros r. subst r. unfold transformer, load_env, connect.
  destruct (unset (MONGO_URI env) || unset (MONGO_DB_NAME env)).
  { split; [reflexivity|]. intros _. split; [reflexivity | now eexists]. }
  destruct (uri_ok srv); cbn [negb].
  2:{ split; [reflexivity|]. intros _. split; [reflexivity | now eexists]. }
  destruct (reachable srv); cbn [negb].
  2:{ split; [reflexivity|]. intros _. split; [reflexivity | now eexists]. }
  destruct (probe_ok srv); cbn [negb].
  2:{ split; [reflexivity | discriminate]. }
  destruct (valid_db_name (db_name env)); cbn [negb].
  2:{ split; [reflexivity | discriminate]. }
  split; [|discriminate].
  unfold clear_old_data.
  destruct (delete_ok srv);
    match goal with
    | |- context [load_raw_data srv ?s] =>
        destruct (load_raw_data srv s) as [l4 [raw_data|e]]; [|reflexivity]
    end;
    (destruct (transform_data set_order utcnow raw_data) as [l5 [vs|e]];
     [|reflexivity]);
    unfold store_transformed;
    (destruct vs; [reflexivity|]);
    (destruct (encodable srv); cbn [negb]; [|reflexivity]);
    destruct (insert_ok srv); reflexivity.
Qed.

Lemma transformer_keeps_raw_store_witness :
  let r := transformer listing noon env_ok
             (mk_server false true true true) (mk_db [payload] [stale]) in
  final r = mk_db [payload] [stale] /\
  exists e, ended r = Aborted e.
Proof.
  exact (proj2 (transformer_keeps_raw_store listing noon env_ok
                  (mk_server false true true true) (mk_db [payload] [stale]))
           eq_refl).
Defined.

End StoreProps.

(** ** More on the fetcher, and the two stages together *)

Module FetcherProps.
Import Py Log Mongo Transform Extract Notions PyFacts TransformFacts.
Import BatchProps Samples Schema StoreProps.

(** X14. A fetch that fails after a reply came back (a 4xx or 5xx status,
    or a body that is not JSON) ends like one with no reply: [main] logs the
    failure and 'No data fetched', does not call [save_to_mongo], and leaves
    the database as it was, whatever the configuration and the server. *)
Theorem failed_fetch_leaves_store (env : environ) (srv : server)
    (status_code : nat) (json : option value) (st : db) :
  is_error_status status_code = true \/ json = None ->
  let out := main env srv (Reply status_code json) st in
  db_after out = st /\
  result_after out = Ok tt /\
  In (error FetchFailed) (log_after out) /\
  In (error NoDataFetched) (log_after out) /\
  ~ In (info Clearing) (log_after out).
Proof.
  intros H out. subst out. unfold main, fetch_cve_data.
  destruct (is_error_status status_code).
  - cbn. repeat split; auto.
    intros [Hc|[Hc|[Hc|[]]]]; discriminate Hc.
  - destruct H as [H | ->]; [discriminate|].
    cbn. repeat split; auto.
    intros [Hc|[Hc|[Hc|[Hc|[]]]]]; discriminate Hc.
Qed.

Lemma failed_fetch_leaves_store_witness :
  db_after (main env_ok healthy (Reply 503 (Some (VDict payload)))
              (mk_db [payload_no_field] [stale]))
  = mk_db [payload_no_field] [stale]
  /\
  db_after (main env_ok healthy (Reply 200 None)
              (mk_db [payload_no_field] [stale]))
  = mk_db [payload_no_field] [stale].
Proof.
  split.
  - exact (proj1 (failed_fetch_leaves_store env_ok healthy 503
                    (Some (VDict payload)) (mk_db [payload_no_field] [stale])
                    (or_introl eq_refl))).
  - exact (proj1 (failed_fetch_leaves_store env_ok healthy 200 None
                    (mk_db [payload_no_field] [stale]) (or_intror eq_refl))).
Defined.

Lemma as_documents_nonempty (l : list value) (docs : list dict) :
  as_documents l = Some docs -> l <> [] -> docs <> [].
Proof.
  destruct l as [|x l]; [congruence|]. intros H _.
  cbn [as_documents] in H. destruct x; try discriminate.
  destruct (as_documents l); [|discriminate]. inversion H. discriminate.
Qed.

(** Past the connection and the clear, [save_to_mongo] is the insert of
    the documents of the payload. *)
Lemma save_to_mongo_insert (env : environ) (srv : server) (data : value)
    (docs : list dict) (st : db) :
  connects env srv = true -> delete_ok srv = true ->
  truthy data = true ->
  documents_of data = Some docs ->
  save_to_mongo env srv data st = insert_documents srv data docs st.
Proof.
  unfold connects. intros H Hd Htruthy Hdocs.
  apply andb_prop in H. destruct H as [H Hn].
  apply andb_prop in H. destruct H as [H Hp].
  apply andb_prop in H. destruct H as [H Hr].
  apply andb_prop in H. destruct H as [He Hu].
  apply negb_true_iff in He.
  unfold save_to_mongo. rewrite He, Hu, Hr, Hp, Hn, Hd. cbn [negb].
  destruct data; try discriminate; cbn [documents_of] in Hdocs.
  - rewrite Hdocs.
    destruct docs as [|d ds]; [|reflexivity].
    exfalso. apply (as_documents_nonempty _ _ Hdocs); [|reflexivity].
    intros ->. discriminate.
  - inversion Hdocs; subst docs. reflexivity.
Qed.

(** X15. An accepted payload replaces the raw store. When the connection,
    the delete and the insert go through (configuration set and accepted
    by the driver, server answering, documents encodable) and no int of the
    payload is beyond 64 bits, a non-empty object is stored as the one raw
    document and a non-empty list of objects as one raw document per item,
    in order; whatever the raw store held before is gone, and the
    normalized store is not touched. *)
Theorem accepted_payload_replaces_raw_store (env : environ) (srv : server)
    (status_code : nat) (data : value) (docs : list dict) (st : db) :
  connects env srv = true ->
  delete_ok srv = true -> inserts srv = true ->
  int64_ok data = true ->
  is_error_status status_code = false ->
  truthy data = true ->
  documents_of data = Some docs ->
  main env srv (Reply status_code (Some data)) st
  = ([info Fetching; info (Fetched status_code);
      info Connecting; info Clearing; info DataInserted],
     mk_db docs (nvd_vulnerabilities st), Ok tt).
Proof.
  intros Hc Hd Hi Hints Hstatus Htruthy Hdocs.
  unfold main, fetch_cve_data. rewrite Hstatus, Htruthy.
  rewrite (save_to_mongo_insert env srv data docs st Hc Hd Htruthy Hdocs).
  unfold inserts in Hi. apply andb_prop in Hi. destruct Hi as [Henc Hins].
  unfold insert_documents. rewrite Hints, Henc, Hins. reflexivity.
Qed.

Lemma accepted_payload_replaces_raw_store_witness :
  db_after (main env_ok healthy (Reply 200 (Some (VDict payload)))
              (mk_db [payload_no_field; payload_null] [stale]))
  = mk_db [payload] [stale]
  /\
  db_after (main env_ok healthy
              (Reply 200 (Some (VList [VDict payload; VDict payload_null])))
              (mk_db [payload_no_field] [stale]))
  = mk_db [payload; payload_null] [stale].
Proof.
  split.
  - exact (f_equal db_after
             (accepted_payload_replaces_raw_store env_ok healthy 200
                (VDict payload) [payload]
                (mk_db [payload_no_field; payload_null] [stale])
                eq_refl eq_refl eq_refl eq_refl eq_refl eq_refl eq_refl)).
  - exact (f_equal db_after
             (accepted_payload_replaces_raw_store env_ok healthy 200
                (VList [VDict payload; VDict payload_null])
                [payload; payload_null] (mk_db [payload_no_field] [stale])
                eq_refl eq_refl eq_refl eq_refl eq_refl eq_refl eq_refl)).
Defined.

(** X16. The fetcher never touches the normalized store: whatever the
    reply, the configuration, the server and the payload, the normalized
    documents after [main] are those before it. *)
Theorem fetcher_keeps_normalized_store (env : environ) (srv : server)
    (r : http_reply) (st : db) :
  nvd_vulnerabilities (db_after (main env srv r st)) = nvd_vulnerabilities st.
Proof.
  unfold main, db_after.
  destruct (fetch_cve_data r) as [l1 data].
  destruct (truthy data); [|reflexivity].
  assert (Hins : forall docs,
            nvd_vulnerabilities
              (snd (fst (insert_documents srv data docs st)))
            = nvd_vulnerabilities st).
  { intros docs. unfold insert_documents.
    destruct (int64_ok data); [|reflexivity].
    destruct (encodable srv); [|reflexivity].
    destruct (insert_ok srv); reflexivity. }
  unfold save_to_mongo.
  destruct (unset (MONGO_URI env) || unset (MONGO_DB_NAME env));
    [reflexivity|].
  destruct (uri_ok srv); [|reflexivity].
  destruct (reachable srv); [|reflexivity].
  destruct (probe_ok srv); [|reflexivity].
  destruct (valid_db_name (db_name env)); [|reflexivity].
  destruct (delete_ok srv); [|reflexivity]. cbn [negb].
  destruct data; try reflexivity.
  - destruct (as_documents l) as [[|d ds]|]; try reflexivity.
    specialize (Hins (d :: ds)).
    destruct (insert_documents srv (VList l) (d :: ds) st) as [[l2 st2] res].
    exact Hins.
  - specialize (Hins [d]).
    destruct (insert_documents srv (VDict d) [d] st) as [[l2 st2] res].
    exact Hins.
Qed.



(** X18. The two stages in sequence. If the fetcher's run gets through its
    connection, delete and insert with an object payload whose
    [vulnerabilities] is a list and whose ints fit 64 bits, and the
    transformer's run then gets through its connection, delete, read and
    insert, the transformer completes and the database holds that payload as
    its raw document and the records of its entries as its normalized
    documents, whatever both stores held before. *)
Theorem fetch_then_transform (set_order : list value -> list value)
    (utcnow : nat -> string) (env : environ) (srv1 srv2 : server)
    (status_code : nat) (d : dict) (items : list value) (st : db) :
  connects env srv1 = true ->
  delete_ok srv1 = true -> inserts srv1 = true ->
  int64_ok (VDict d) = true ->
  is_error_status status_code = false ->
  dict_get d "vulnerabilities" = Some (VList items) ->
  connects env srv2 = true ->
  delete_ok srv2 = true -> find_ok srv2 = true -> inserts srv2 = true ->
  let fetched := main env srv1 (Reply status_code (Some (VDict d))) st in
  let r := transformer set_order utcnow env srv2 (db_after fetched) in
  result_after fetched = Ok tt /\
  final r = mk_db [d] (records_of set_order utcnow 0 items) /\
  ended r = Completed.
Proof.
  intros Hc1 Hd1 Hi1 Hints Hstatus Hv Hc2 Hd2 Hf2 Hi2 fetched r.
  subst fetched r.
  assert (Htruthy : truthy (VDict d) = true).
  { destruct d; [discriminate | reflexivity]. }
  assert (Hmain : main env srv1 (Reply status_code (Some (VDict d))) st
                  = ([info Fetching; info (Fetched status_code);
                      info Connecting; info Clearing; info DataInserted],
                     mk_db [d] (nvd_vulnerabilities st), Ok tt)).
  { unfold main, fetch_cve_data. rewrite Hstatus, Htruthy.
    rewrite (save_to_mongo_insert env srv1 (VDict d) [d] st Hc1 Hd1 Htruthy
               eq_refl).
    unfold inserts in Hi1. apply andb_prop in Hi1.
    destruct Hi1 as [Henc Hins].
    unfold insert_documents. rewrite Hints, Henc, Hins. reflexivity. }
  rewrite Hmain. cbn [db_after result_after fst snd].
  split; [reflexivity|].
  destruct (transformer_run set_order utcnow env srv2
              (mk_db [d] (nvd_vulnerabilities st)) d items
              Hc2 Hf2 (or_intror Hi2) eq_refl Hv) as (Hfinal & Hend & _).
  rewrite Hd2 in Hfinal. split; [exact Hfinal | exact Hend].
Qed.

Lemma fetch_then_transform_witness :
  let fetched :=
    main env_ok healthy (Reply 200 (Some (VDict payload)))
      (mk_db [payload_no_field] [stale]) in
  let r := transformer listing noon env_ok healthy (db_after fetched) in
  nvd_raw (final r) = [payload] /\
  List.length (nvd_vulnerabilities (final r)) = 2 /\
  ended r = Completed.
Proof.
  pose proof (fetch_then_transform listing noon env_ok healthy healthy 200
                payload [vuln cve_empty_url; VDict []; vuln cve_scored]
                (mk_db [payload_no_field] [stale])
                eq_refl eq_refl eq_refl eq_refl eq_refl eq_refl
                eq_refl eq_refl eq_refl eq_refl) as (_ & Hfinal & Hend).
  split; [|split; [|exact Hend]].
  - exact (f_equal nvd_raw Hfinal).
  - exact (f_equal (fun s => List.length (nvd_vulnerabilities s)) Hfinal).
Defined.

End FetcherProps.
